(** * CubicClientKit: the client of src/core/cubicclient.ts, embedded and verified

    The development follows the TypeScript sources:
    - [Js]       the few JavaScript notions the client relies on
                 (numbers with NaN, truthiness, [encodeURIComponent]);
    - [Types]    the interfaces of src/utils/types.ts;
    - [Axios]    one axios instance: request configs, the outcome of one attempt
                 on the wire, the retry interceptor and the request loop;
    - [Client]   the class [CubicClient]: constructor, [call], [callAgent],
                 [getAgents], [getHealth], [prepareCallRequest].

    - [Utf16]    [callAgent] for agent names that are JavaScript strings in
                 full, where [encodeURIComponent] can throw.

    Strings are [string]; a character of code n stands for the UTF-16 code
    unit n, so the strings of the model are the JavaScript strings whose code
    units are below 256; agent names in full are lists of code units.
    Numbers are integers or NaN. *)

From Stdlib Require Import ZArith NArith String Ascii List Bool Lia DecimalString.
Import ListNotations.

Local Open Scope string_scope.
Local Open Scope Z_scope.

(* ================================================================== *)
(** ** JavaScript values                                               *)
(* ================================================================== *)

Module Js.

(** A JavaScript number, as far as the client looks at one: an integer or
    NaN.  Fractions and the infinities are left out. *)
Inductive number : Type :=
| Num (z : Z)
| NaN.

(** ToBoolean.  An absent property ([undefined]) is [None]. *)
Class Truthy (A : Type) := truthy : A -> bool.

#[export] Instance truthy_string : Truthy string :=
  fun s => match s with EmptyString => false | String _ _ => true end.

#[export] Instance truthy_number : Truthy number :=
  fun n => match n with Num z => negb (z =? 0) | NaN => false end.

#[export] Instance truthy_Z : Truthy Z :=
  fun z => negb (z =? 0).

#[export] Instance truthy_option {A} `{Truthy A} : Truthy (option A) :=
  fun o => match o with Some a => truthy a | None => false end.

(** [a || b] on values of one type. *)
Definition or_else {A} `{Truthy A} (a : option A) (b : A) : A :=
  match a with
  | Some x => if truthy x then x else b
  | None => b
  end.

(** [n > m]; every comparison with NaN is false. *)
Definition gtb (n m : number) : bool :=
  match n, m with
  | Num a, Num b => b <? a
  | _, _ => false
  end.

(** [c >= m] where [c] may be [undefined]: [undefined] converts to NaN. *)
Definition geb_undef (c : option Z) (m : Z) : bool :=
  match c with
  | Some k => m <=? k
  | None => false
  end.

(** *** encodeURIComponent

    Modelled from ECMA-262 (the function is a builtin of the platform, not
    code of the repository): a code unit of the unreserved set
    [A-Z a-z 0-9 - _ . ! ~ * ' ( )] is kept, any other is replaced by the
    escaped octets of its UTF-8 encoding, in upper-case hexadecimal.  Code
    units below 256 need one or two octets. *)

Definition in_range (lo hi c : N) : bool := ((lo <=? c) && (c <=? hi))%N.

Definition unreserved (c : ascii) : bool :=
  let n := N_of_ascii c in
  in_range 65 90 n || in_range 97 122 n || in_range 48 57 n
  || existsb (Ascii.eqb c) (list_ascii_of_string "-_.!~*'()").

Definition hexDigit (d : N) : ascii :=
  ascii_of_N (if (d <? 10)%N then 48 + d else 55 + d)%N.

Definition escapeOctet (o : N) : string :=
  String "%" (String (hexDigit (o / 16)) (String (hexDigit (o mod 16)) EmptyString)).

Definition utf8 (cu : N) : list N :=
  if (cu <? 128)%N then [cu] else [192 + cu / 64; 128 + cu mod 64]%N.

Fixpoint encodeURIComponent (s : string) : string :=
  match s with
  | EmptyString => EmptyString
  | String c rest =>
      (if unreserved c then String c EmptyString
       else String.concat EmptyString (map escapeOctet (utf8 (N_of_ascii c))))
      ++ encodeURIComponent rest
  end.

End Js.

Import Js.

(* ================================================================== *)
(** ** src/utils/types.ts                                              *)
(* ================================================================== *)

Module Types.

(** [Message.sender].  The interface requires [id]; the client checks it at
    run time because callers can pass objects that lack it, so the property
    is optional here ([None] is [undefined]). *)
Record Sender : Type := mkSender {
  id : option string;
  name : option string
}.

(** An object is always truthy. *)
#[export] Instance truthy_Sender : Truthy Sender := fun _ => true.

Record Message : Type := mkMessage {
  sender : option Sender;
  type : option string;
  content : option string;
  timestamp : option string
}.

Record CubicClientOptions : Type := mkOptions {
  baseUrl : option string;
  timeout : option number;
  retry : option number
}.

Record Metadata : Type := mkMetadata {
  usedToken : Z;
  usedTools : Z
}.

(** [CallResponse]; its fields carry the prefix [res_] to keep them apart
    from those of [Message]. *)
Record CallResponse : Type := mkCallResponse {
  res_sender : string * string;
  res_timestamp : string;
  res_type : string;
  res_content : string;
  res_metadata : Metadata
}.

Record AgentsResponse : Type := mkAgentsResponse {
  availableAgents : list string
}.

Inductive Health : Type := healthy | unhealthy.

Record ServiceStatus : Type := mkServiceStatus {
  svc_status : Health;
  svc_error : option string;
  svc_count : option Z;
  svc_agents : option (list string);
  svc_providers : option (list string)
}.

Record Services : Type := mkServices {
  prompt : option ServiceStatus;
  agents : option ServiceStatus;
  providers : option ServiceStatus;
  spec : option ServiceStatus
}.

Record HealthStatus : Type := mkHealthStatus {
  status : Health;
  health_timestamp : string;
  services : Services
}.

Record CallRequest : Type := mkCallRequest {
  messages : list Message
}.

End Types.

Import Types.

(* ================================================================== *)
(** ** The axios instance                                              *)
(* ================================================================== *)

Module Axios.

Inductive Method : Type := GET | POST.

(** The config object of one request.  [__retryCount] is the property the
    retry interceptor adds to it; it is [undefined] on a fresh request. *)
Record RequestConfig : Type := mkConfig {
  method : Method;
  url : string;
  data : option CallRequest;
  baseURL : option string;
  cfg_timeout : number;
  headers : list (string * string);
  __retryCount : option Z
}.

Definition set_retryCount (cfg : RequestConfig) (k : Z) : RequestConfig :=
  mkConfig (method cfg) (url cfg) (data cfg) (baseURL cfg) (cfg_timeout cfg)
           (headers cfg) (Some k).

(** [AxiosResponse<D>], as far as the client reads it. *)
Record AxiosResponse (D : Type) : Type := mkResponse {
  res_status : Z;
  res_data : D
}.
Arguments mkResponse {D} _ _.
Arguments res_status {D} _.
Arguments res_data {D} _.

(** The response carried by a failure: status code and raw body. *)
Record ErrorResponse : Type := mkErrorResponse {
  err_status : Z;
  err_body : string
}.

#[export] Instance truthy_ErrorResponse : Truthy ErrorResponse := fun _ => true.

(** The error a failed attempt rejects with.  [error.config] is a reference
    to the config object of the attempt that failed; that object is the
    state [cfg] of the request loop below, and the error records whether
    it holds the reference ([has_config]).  An error built by axios holds
    it, a foreign error (thrown by a stub of the transport, say) does not. *)
Record AxiosError : Type := mkAxiosError {
  message : string;
  code : option string;
  response : option ErrorResponse;
  has_config : bool
}.

(** What one attempt on the wire settles to, before the response
    interceptors run. *)
Inductive Outcome (D : Type) : Type :=
| Fulfilled (r : AxiosResponse D)
| Failed (e : AxiosError).
Arguments Fulfilled {D} _.
Arguments Failed {D} _.

(** The transport of an instance: the outcome of the [n]-th attempt
    (counted from 0 within one logical request) for the config sent. *)
Definition Transport (D : Type) : Type := nat -> RequestConfig -> Outcome D.

(** A value a promise rejects with (or a [throw] raises): an [Error] made
    by the client with [new Error(msg)], the [URIError] that
    [encodeURIComponent] raises, or the error of the transport. *)
Inductive Thrown : Type :=
| Error (msg : string)
| URIError
| TransportError (e : AxiosError).

Inductive Settled (A : Type) : Type :=
| Resolved (a : A)
| Rejected (t : Thrown).
Arguments Resolved {A} _.
Arguments Rejected {A} _.

(** What a run does that can be observed from outside: the attempts it puts
    on the wire and the delays it waits, in order. *)
Inductive Event : Type :=
| Attempt (cfg : RequestConfig)
| Delay (ms : Z).

Definition Trace : Type := list Event.

Definition attempts (t : Trace) : list RequestConfig :=
  flat_map (fun ev => match ev with Attempt c => [c] | Delay _ => [] end) t.

Definition delays (t : Trace) : list Z :=
  flat_map (fun ev => match ev with Attempt _ => [] | Delay ms => [ms] end) t.

(** An instance made by [axios.create]: its defaults, and the retry
    interceptor when the constructor installed one (with its captured
    [maxRetries]). *)
Record AxiosInstance : Type := mkInstance {
  defaults_baseURL : option string;
  defaults_timeout : number;
  defaults_headers : list (string * string);
  retryInterceptor : option Z
}.

Definition code_is (e : AxiosError) (c : string) : bool :=
  match code e with
  | Some c' => String.eqb c' c
  | None => false
  end.

(** cubicclient.ts, lines 48-53: the condition under which a failure is
    retried. *)
Definition retryable (e : AxiosError) : bool :=
  code_is e "ECONNABORTED"
  || code_is e "ENOTFOUND"
  || code_is e "ECONNREFUSED"
  || match response e with
     | Some r => truthy r && (500 <=? err_status r)
     | None => false
     end.

(** What the rejected-handler decides. *)
Inductive Decision : Type :=
| RejectWith (e : AxiosError)
| RetryAfter (ms : Z).

(** cubicclient.ts, lines 38-59: the rejected-handler of the response
    interceptor, on the error of an attempt sent with [cfg].  It returns
    the config object as the handler leaves it, and the decision. *)
Definition onRejected (maxRetries : Z) (error : AxiosError) (cfg : RequestConfig)
  : RequestConfig * Decision :=
  if negb (has_config error) || geb_undef (__retryCount cfg) maxRetries then
    (cfg, RejectWith error)
  else
    let count := or_else (__retryCount cfg) 0 + 1 in
    let cfg' := set_retryCount cfg count in
    if retryable error then (cfg', RetryAfter (1000 * count))
    else (cfg', RejectWith error).

Section Request.

Context {D : Type}.
Variable transport : Transport D.
Variable interceptor : option Z.

(** One logical request through the instance: the attempt, then the
    response interceptor; [this.httpClient(config)] in the handler is the
    recursive call.  [None] when [fuel] attempts did not settle it. *)
Fixpoint request (fuel : nat) (n : nat) (cfg : RequestConfig)
  : option (Settled (AxiosResponse D) * Trace) :=
  match fuel with
  | O => None
  | S fuel' =>
      match transport n cfg with
      | Fulfilled r => Some (Resolved r, [Attempt cfg])
      | Failed e =>
          match interceptor with
          | None => Some (Rejected (TransportError e), [Attempt cfg])
          | Some maxRetries =>
              match onRejected maxRetries e cfg with
              | (_, RejectWith e') =>
                  Some (Rejected (TransportError e'), [Attempt cfg])
              | (cfg', RetryAfter ms) =>
                  match request fuel' (S n) cfg' with
                  | Some (s, t) => Some (s, Attempt cfg :: Delay ms :: t)
                  | None => None
                  end
              end
          end
      end
  end.

End Request.

(** Attempts that always settle a request of the instance: the first one
    and one per retry the interceptor can grant. *)
Definition fuel_of (inst : AxiosInstance) : nat :=
  match retryInterceptor inst with
  | Some maxRetries => S (S (Z.to_nat maxRetries))
  | None => 1%nat
  end.

(** The config of a request made through the instance: the arguments merged
    over the defaults. *)
Definition merged (inst : AxiosInstance) (m : Method) (u : string)
           (d : option CallRequest) : RequestConfig :=
  mkConfig m u d (defaults_baseURL inst) (defaults_timeout inst)
           (defaults_headers inst) None.

Definition send {D} (inst : AxiosInstance) (transport : Transport D)
           (cfg : RequestConfig) : option (Settled (AxiosResponse D) * Trace) :=
  request transport (retryInterceptor inst) (fuel_of inst) 0 cfg.

Definition post {D} (inst : AxiosInstance) (transport : Transport D)
           (u : string) (d : CallRequest) :=
  send inst transport (merged inst POST u (Some d)).

Definition get {D} (inst : AxiosInstance) (transport : Transport D) (u : string) :=
  send inst transport (merged inst GET u None).

(** [axios.create(defaults)]. *)
Definition create (b : option string) (t : number) (h : list (string * string))
  : AxiosInstance :=
  mkInstance b t h None.

(** [instance.interceptors.response.use(fulfilled, rejected)] with the
    handlers of cubicclient.ts. *)
Definition use_retry (inst : AxiosInstance) (maxRetries : Z) : AxiosInstance :=
  mkInstance (defaults_baseURL inst) (defaults_timeout inst)
             (defaults_headers inst) (Some maxRetries).

End Axios.

Import Axios.

(* ================================================================== *)
(** ** src/core/cubicclient.ts                                         *)
(* ================================================================== *)

Module Client.

Record CubicClient : Type := mkClient {
  httpClient : AxiosInstance
}.

(** How a synchronous piece of code ends. *)
Inductive Completion (A : Type) : Type :=
| Return (a : A)
| Throw (t : Thrown).
Arguments Return {A} _.
Arguments Throw {A} _.

(** The argument of [call] and [callAgent], [Message[] | Message];
    [Array.isArray] tells the two apart. *)
Inductive MessagesInput : Type :=
| One (m : Message)
| Many (ms : list Message).

(** [message.sender.id], read after [message.sender] was found truthy. *)
Definition sender_id (m : Message) : option string :=
  match sender m with
  | Some s => id s
  | None => None
  end.

(** String conversion in a template literal. *)
Definition toString (s : option string) : string :=
  match s with
  | Some x => x
  | None => "undefined"
  end.

(** cubicclient.ts, lines 20-62. *)
Definition new_CubicClient (options : CubicClientOptions) : Completion CubicClient :=
  if negb (truthy (baseUrl options)) then
    Throw (Error "baseUrl is required")
  else
    let http :=
      create (baseUrl options)
             (or_else (timeout options) (Num 90000))
             [("Content-Type", "application/json")] in
    match retry options with
    | Some (Num maxRetries) =>
        if truthy (Num maxRetries) && gtb (Num maxRetries) (Num 0) then
          Return (mkClient (use_retry http maxRetries))
        else
          Return (mkClient http)
    | Some NaN | None => Return (mkClient http)
    end.

(** cubicclient.ts, lines 138-148: the loop over the array. *)
Fixpoint validateEach (ms : list Message) : Completion unit :=
  match ms with
  | [] => Return tt
  | message :: rest =>
      if negb (truthy (sender message)) || negb (truthy (content message)) then
        Throw (Error "Each message must have both sender and content properties")
      else if negb (truthy (sender_id message)) then
        Throw (Error "Each message sender must have an id property")
      else if negb (truthy (type message)) then
        Throw (Error "Each message must have a type property")
      else validateEach rest
  end.

(** cubicclient.ts, lines 116-151. *)
Definition prepareCallRequest (input : MessagesInput) : Completion CallRequest :=
  match input with
  | One m =>
      if negb (truthy (sender m)) || negb (truthy (content m)) then
        Throw (Error "Message must have both sender and content properties")
      else if negb (truthy (sender_id m)) then
        Throw (Error "Message sender must have an id property")
      else if negb (truthy (type m)) then
        Throw (Error "Message must have a type property")
      else Return (mkCallRequest [m])
  | Many ms =>
      if (length ms =? 0)%nat then
        Throw (Error "messages array cannot be empty")
      else
        match validateEach ms with
        | Throw t => Throw t
        | Return _ => Return (mkCallRequest ms)
        end
  end.

(** What an asynchronous method of the client yields: how its promise
    settles and what the run did on the network; [None] if the request loop
    ran out of fuel. *)
Definition Run (A : Type) : Type := option (Settled A * Trace).

(** [await] a request, then return [f response]. *)
Definition unwrap {D A} (f : AxiosResponse D -> A)
           (r : option (Settled (AxiosResponse D) * Trace)) : Run A :=
  match r with
  | Some (Resolved resp, t) => Some (Resolved (f resp), t)
  | Some (Rejected e, t) => Some (Rejected e, t)
  | None => None
  end.

(** cubicclient.ts, lines 69-73. *)
Definition call (c : CubicClient) (transport : Transport CallResponse)
           (input : MessagesInput) : Run string :=
  match prepareCallRequest input with
  | Throw t => Some (Rejected t, [])
  | Return requestPayload =>
      unwrap (fun response => res_content (res_data response))
             (post (httpClient c) transport "/dispatch" requestPayload)
  end.

(** cubicclient.ts, lines 81-92, for agent names of code units below 256,
    where [encodeURIComponent] always returns; [Utf16.callAgent] below has
    the names in full. *)
Definition callAgent (c : CubicClient) (transport : Transport CallResponse)
           (agentName : option string) (input : MessagesInput) : Run string :=
  if negb (truthy agentName) then
    Some (Rejected (Error "agentName is required"), [])
  else
    match prepareCallRequest input with
    | Throw t => Some (Rejected t, [])
    | Return requestPayload =>
        unwrap (fun response => res_content (res_data response))
               (post (httpClient c) transport
                     ("/dispatch/" ++ encodeURIComponent (toString agentName))
                     requestPayload)
    end.

(** cubicclient.ts, lines 98-101. *)
Definition getAgents (c : CubicClient) (transport : Transport AgentsResponse)
  : Run (list string) :=
  unwrap (fun response => availableAgents (res_data response))
         (get (httpClient c) transport "/agents").

(** cubicclient.ts, lines 107-110. *)
Definition getHealth (c : CubicClient) (transport : Transport HealthStatus)
  : Run HealthStatus :=
  unwrap (fun response => res_data response)
         (get (httpClient c) transport "/health").

End Client.

Import Client.

(* ================================================================== *)
(** ** Agent names as JavaScript strings in full                       *)
(* ================================================================== *)

(** [callAgent] above takes agent names whose code units are below 256, on
    which [encodeURIComponent] always returns.  A JavaScript string in full
    is a sequence of UTF-16 code units, and there the builtin throws: this
    module has the method on such names.  On the names above the two agree
    (lemma [callAgent_units] below). *)
Module Utf16.

(** The UTF-16 code units of a string, each below 65536. *)
Definition jsstring : Type := list N.

#[export] Instance truthy_jsstring : Truthy jsstring :=
  fun s => match s with [] => false | _ :: _ => true end.

(** The string of the model with the same code units. *)
Definition units (s : string) : jsstring :=
  map N_of_ascii (list_ascii_of_string s).

(** Leading surrogates are D800-DBFF, trailing ones DC00-DFFF. *)
Definition isLeading (u : N) : bool := in_range 55296 56319 u.
Definition isTrailing (u : N) : bool := in_range 56320 57343 u.

Definition unreservedUnit (u : N) : bool :=
  (u <? 128)%N && unreserved (ascii_of_N u).

(** The octets of the UTF-8 encoding of a code point. *)
Definition utf8 (cp : N) : list N :=
  if (cp <? 128)%N then [cp]
  else if (cp <? 2048)%N then [192 + cp / 64; 128 + cp mod 64]%N
  else if (cp <? 65536)%N then
    [224 + cp / 4096; 128 + (cp / 64) mod 64; 128 + cp mod 64]%N
  else
    [240 + cp / 262144; 128 + (cp / 4096) mod 64;
     128 + (cp / 64) mod 64; 128 + cp mod 64]%N.

Definition escape (cp : N) : string :=
  String.concat EmptyString (map escapeOctet (utf8 cp)).

(** The code point of a surrogate pair. *)
Definition pairToCodePoint (lead trail : N) : N :=
  ((lead - 55296) * 1024 + (trail - 56320) + 65536)%N.

(** Modelled from ECMA-262 (Encode with the unreserved set of
    [encodeURIComponent]): an unreserved code unit is kept; otherwise the
    code point at that place is read, a surrogate without its partner raises
    [URIError], and the octets of the code point are escaped. *)
Fixpoint encodeURIComponent (s : jsstring) : Completion string :=
  match s with
  | [] => Return EmptyString
  | u :: r =>
      if unreservedUnit u then
        match encodeURIComponent r with
        | Return t => Return (String (ascii_of_N u) t)
        | Throw th => Throw th
        end
      else if isTrailing u then Throw URIError
      else if isLeading u then
        match r with
        | [] => Throw URIError
        | v :: r' =>
            if isTrailing v then
              match encodeURIComponent r' with
              | Return t => Return (escape (pairToCodePoint u v) ++ t)
              | Throw th => Throw th
              end
            else Throw URIError
        end
      else
        match encodeURIComponent r with
        | Return t => Return (escape u ++ t)
        | Throw th => Throw th
        end
  end.

(** [String.prototype.isWellFormed]: no surrogate without its partner. *)
Fixpoint isWellFormed (s : jsstring) : bool :=
  match s with
  | [] => true
  | u :: r =>
      if isLeading u then
        match r with
        | [] => false
        | v :: r' => isTrailing v && isWellFormed r'
        end
      else if isTrailing u then false
      else isWellFormed r
  end.

(** String conversion in a template literal. *)
Definition toString (s : option jsstring) : jsstring :=
  match s with
  | Some x => x
  | None => units "undefined"
  end.

(** cubicclient.ts, lines 81-92, for an agent name in full: the name is
    tested, the messages are normalized, the path is built (where
    [encodeURIComponent] may throw), and the request is sent. *)
Definition callAgent (c : CubicClient) (transport : Transport CallResponse)
           (agentName : option jsstring) (input : MessagesInput) : Run string :=
  if negb (truthy agentName) then
    Some (Rejected (Error "agentName is required"), [])
  else
    match prepareCallRequest input with
    | Throw t => Some (Rejected t, [])
    | Return requestPayload =>
        match encodeURIComponent (toString agentName) with
        | Throw t => Some (Rejected t, [])
        | Return segment =>
            unwrap (fun response => res_content (res_data response))
                   (post (httpClient c) transport
                         ("/dispatch/" ++ segment) requestPayload)
        end
    end.

End Utf16.

(* ================================================================== *)
(** ** Notions used to state the properties                            *)
(* ================================================================== *)

(** What of a config goes on the wire: everything but the bookkeeping
    property of the interceptor. *)
Definition wire (cfg : RequestConfig)
  : Method * string * option CallRequest * option string * number
    * list (string * string) :=
  (method cfg, url cfg, data cfg, baseURL cfg, cfg_timeout cfg, headers cfg).

(** The retry count a config stands at, [config.__retryCount || 0]. *)
Definition count0 (cfg : RequestConfig) : Z := or_else (__retryCount cfg) 0.

(** The config of attempt [j] of a request first sent with [cfg]: after
    [j] retries the handler has raised the count [j] times. *)
Definition nthConfig (cfg : RequestConfig) (j : nat) : RequestConfig :=
  match j with
  | O => cfg
  | S _ => set_retryCount cfg (count0 cfg + Z.of_nat j)
  end.

(** The linear backoff: [k] retries of [cfg] from the count [from], each
    after a delay of 1000 times the new count. *)
Fixpoint backoff (cfg : RequestConfig) (from : Z) (k : nat) : Trace :=
  match k with
  | O => []
  | S k' =>
      Delay (1000 * (from + 1))
      :: Attempt (set_retryCount cfg (from + 1))
      :: backoff cfg (from + 1) k'
  end.

(** A failure outside the retried classes: none of the three network codes,
    and no response with a status of 500 or more. *)
Definition terminal (e : AxiosError) : Prop :=
  code e <> Some "ECONNABORTED"
  /\ code e <> Some "ENOTFOUND"
  /\ code e <> Some "ECONNREFUSED"
  /\ (forall r, response e = Some r -> err_status r < 500).

(** A failure of an attempt that carries a response of status [st] and the
    reference to its config. *)
Definition httpStatus (e : AxiosError) (st : Z) : Prop :=
  has_config e = true /\ exists r, response e = Some r /\ err_status r = st.

(** The failure axios builds from a response of status [st]. *)
Definition httpFailure (st : Z) (body : string) : AxiosError :=
  mkAxiosError ("Request failed with status code "
                ++ NilZero.string_of_int (Z.to_int st))
               (Some (if st <? 500 then "ERR_BAD_REQUEST" else "ERR_BAD_RESPONSE"))
               (Some (mkErrorResponse st body))
               true.

(** A message that passes the three checks. *)
Definition wellFormed (m : Message) : bool :=
  truthy (sender m) && truthy (content m) && truthy (sender_id m) && truthy (type m).

(** Both dispatch methods reject [input] with [new Error(msg)] and put
    nothing on the wire. *)
Definition rejectsBeforeNetwork (c : CubicClient) (T : Transport CallResponse)
           (input : MessagesInput) (msg : string) : Prop :=
  call c T input = Some (Rejected (Error msg), [])
  /\ (forall agentName : string,
         agentName <> EmptyString ->
         callAgent c T (Some agentName) input = Some (Rejected (Error msg), [])).

(** [P] holds of every attempt any method of the client puts on the wire. *)
Definition everyAttempt (c : CubicClient) (P : RequestConfig -> Prop) : Prop :=
  (forall T input s t, call c T input = Some (s, t) -> Forall P (attempts t))
  /\ (forall T agentName input s t,
         callAgent c T agentName input = Some (s, t) -> Forall P (attempts t))
  /\ (forall T s t, getAgents c T = Some (s, t) -> Forall P (attempts t))
  /\ (forall T s t, getHealth c T = Some (s, t) -> Forall P (attempts t)).


(** Fixtures, after tests/client/cubicclient.test.ts. *)
Module Fixtures.

Definition john : Sender := mkSender (Some "user_123") (Some "John Doe").

Definition hello : Message :=
  mkMessage (Some john) (Some "text") (Some "Hello") None.

Definition hiThere : Message :=
  mkMessage (Some (mkSender (Some "gpt_4o") (Some "GPT-4O Agent")))
            (Some "text") (Some "Hi there!") None.

(** [{ content: 'Hello' }]: no sender, no type. *)
Definition noSender : Message :=
  mkMessage None None (Some "Hello") None.

(** [{ sender: { name: 'John' }, type: 'text', content: 'Hello' }]. *)
Definition noSenderId : Message :=
  mkMessage (Some (mkSender None (Some "John"))) (Some "text") (Some "Hello") None.

(** [{ sender: { id: 'user_123' }, content: 'Hello' }]. *)
Definition noType : Message :=
  mkMessage (Some (mkSender (Some "user_123") None)) None (Some "Hello") None.

(** All properties present, [content] the empty string. *)
Definition emptyContent : Message :=
  mkMessage (Some john) (Some "text") (Some EmptyString) None.

(** All properties present, [sender.id] the empty string. *)
Definition emptySenderId : Message :=
  mkMessage (Some (mkSender (Some EmptyString) (Some "John"))) (Some "text")
            (Some "Hello") None.

Definition reply : CallResponse :=
  mkCallResponse ("gpt_4o", "GPT-4O Agent") "2025-07-30T10:00:00Z" "text"
                 "Response from agent" (mkMetadata 150 2).

Definition localhost : option string := Some "http://localhost:1503".


Definition retryOptions : CubicClientOptions :=
  mkOptions localhost None (Some (Num 3)).

Definition plainClient : CubicClient :=
  mkClient (create localhost (Num 90000) [("Content-Type", "application/json")]).

Definition retryClient : CubicClient :=
  mkClient (use_retry (httpClient plainClient) 3).

(** A transport that answers 503 twice, then 200. *)
Definition flaky : Transport CallResponse :=
  fun n _ =>
    match n with
    | 0%nat | 1%nat => Failed (httpFailure 503 "Service Unavailable")
    | _ => Fulfilled (mkResponse 200 reply)
    end.

(** A transport that always answers 400. *)
Definition badRequest : Transport CallResponse :=
  fun _ _ => Failed (httpFailure 400 "Bad Request").

(** A transport that always answers 200 with [reply]. *)
Definition steady : Transport CallResponse :=
  fun _ _ => Fulfilled (mkResponse 200 reply).

(** A transport for [GET /agents] with a duplicate in the list. *)
Definition roster : list string := ["gpt_4o"; "claude_3_5"; "gpt_4o"; "weather_agent"].

Definition agentsTransport : Transport AgentsResponse :=
  fun _ _ => Fulfilled (mkResponse 200 (mkAgentsResponse roster)).

End Fixtures.

(* ================================================================== *)
(** ** Notions for the properties of whole runs                        *)
(* ================================================================== *)

(** The time a run spends waiting between attempts. *)
Definition totalDelay (t : Trace) : Z := fold_right Z.add 0 (delays t).

(** [P] holds of the trace of every run of every method of the client. *)
Definition everyRun (c : CubicClient) (P : Trace -> Prop) : Prop :=
  (forall T input s t, call c T input = Some (s, t) -> P t)
  /\ (forall T agentName input s t,
         callAgent c T agentName input = Some (s, t) -> P t)
  /\ (forall T s t, getAgents c T = Some (s, t) -> P t)
  /\ (forall T s t, getHealth c T = Some (s, t) -> P t).

(** Every method of the client settles, whatever the transport does. *)
Definition alwaysSettles (c : CubicClient) : Prop :=
  (forall T input, exists r, call c T input = Some r)
  /\ (forall T agentName input, exists r, callAgent c T agentName input = Some r)
  /\ (forall T, exists r, getAgents c T = Some r)
  /\ (forall T, exists r, getHealth c T = Some r).

(** How the attempt [k] that ends a request relates to its outcome: a
    fulfilled attempt resolves with its response, a failed one rejects with
    its error, and then the handler had a reason not to retry. *)
Definition endsWith {D} (maxRetries : Z) (T : Transport D) (n : nat)
           (cfg : RequestConfig) (s : Settled (AxiosResponse D)) : Prop :=
  match T n cfg with
  | Fulfilled r => s = Resolved r
  | Failed e =>
      s = Rejected (TransportError e)
      /\ (has_config e = false
          \/ geb_undef (__retryCount cfg) maxRetries = true
          \/ retryable e = false)
  end.

(** The failures the handler retries, in the words of its comment: a
    network error with one of the three codes, or a 5xx status. *)
Definition retriedClass (e : AxiosError) : Prop :=
  code e = Some "ECONNABORTED"
  \/ code e = Some "ENOTFOUND"
  \/ code e = Some "ECONNREFUSED"
  \/ (exists r, response e = Some r /\ 500 <= err_status r).

(** The texts of the errors [prepareCallRequest] throws. *)
Definition normalizerErrors : list string :=
  ["Message must have both sender and content properties";
   "Message sender must have an id property";
   "Message must have a type property";
   "messages array cannot be empty";
   "Each message must have both sender and content properties";
   "Each message sender must have an id property";
   "Each message must have a type property"].

(** A run that ended in an error of the client's own: one of [msgs], and
    nothing was put on the wire. *)
Definition ownError {A} (msgs : list string) (s : Settled A) (t : Trace) : Prop :=
  t = [] /\ exists msg, In msg msgs /\ s = Rejected (Error msg).

(** A run that went to the wire: it resolves, or rejects with the error of
    the transport. *)
Definition fromWire {A} (s : Settled A) (t : Trace) : Prop :=
  (exists cfg t', t = Attempt cfg :: t')
  /\ ((exists v, s = Resolved v) \/ (exists e, s = Rejected (TransportError e))).

(** A body as the normalizer lets it through: a non-empty array of
    well-formed messages. *)
Definition soundBody (a : RequestConfig) : Prop :=
  exists requestPayload,
    data a = Some requestPayload
    /\ messages requestPayload <> []
    /\ forallb wellFormed (messages requestPayload) = true.

(** What [encodeURIComponent] writes for one code unit. *)
Definition escapeChar (c : ascii) : string :=
  if unreserved c then String c EmptyString
  else String.concat EmptyString (map escapeOctet (utf8 (N_of_ascii c))).

Definition isUpperHex (c : ascii) : bool :=
  let n := N_of_ascii c in in_range 48 57 n || in_range 65 70 n.

(** A well-formed escaped string: unreserved characters, and [%] followed by
    two upper-case hexadecimal digits. *)
Fixpoint wellEscaped (s : string) : bool :=
  match s with
  | EmptyString => true
  | String c r =>
      if unreserved c then wellEscaped r
      else if Ascii.eqb c "%" then
        match r with
        | String a (String b r') => isUpperHex a && isUpperHex b && wellEscaped r'
        | _ => false
        end
      else false
  end.

Definition hexValue (c : ascii) : option N :=
  let n := N_of_ascii c in
  if in_range 48 57 n then Some (n - 48)%N
  else if in_range 65 70 n then Some (n - 55)%N
  else None.

Definition octetOf (a b : ascii) : option N :=
  match hexValue a, hexValue b with
  | Some x, Some y => Some (16 * x + y)%N
  | _, _ => None
  end.

(** Reading back the first code unit of an escaped string, and what follows
    it: the inverse of one step of [encodeURIComponent], used to show that
    the encoding loses nothing. *)
Definition unescapeHead (s : string) : option (ascii * string) :=
  match s with
  | EmptyString => None
  | String c r =>
      if unreserved c then Some (c, r)
      else
        match r with
        | String a (String b r') =>
            match octetOf a b with
            | Some o =>
                if (o <? 128)%N then Some (ascii_of_N o, r')
                else
                  match r' with
                  | String _ (String a2 (String b2 r'')) =>
                      match octetOf a2 b2 with
                      | Some o2 =>
                          Some (ascii_of_N ((o - 192) * 64 + (o2 - 128)), r'')
                      | None => None
                      end
                  | _ => None
                  end
            | None => None
            end
        | _ => None
        end
  end.

(** More fixtures. *)
Module Scenes.

(** A refused connection, as axios reports it. *)
Definition refused : AxiosError :=
  mkAxiosError "connect ECONNREFUSED" (Some "ECONNREFUSED") None true.

(** [new Error('Network error')] thrown by a stub: no code, no config. *)
Definition networkError : AxiosError :=
  mkAxiosError "Network error" None None false.

(** An error with a retried code but without the reference to a config. *)
Definition strayTimeout : AxiosError :=
  mkAxiosError "timeout of 90000ms exceeded" (Some "ECONNABORTED") None false.

(** A transport that is down for good. *)
Definition down {D} : Transport D := fun _ _ => Failed refused.

(** [{ sender: { id: '' }, type: 'text', content: '' }]: both strings
    empty. *)
Definition emptyBoth : Message :=
  mkMessage (Some (mkSender (Some EmptyString) None)) (Some "text")
            (Some EmptyString) None.

(** The agent name ['\uD800']: a leading surrogate on its own. *)
Definition loneSurrogate : Utf16.jsstring := [55296%N].


Definition stub {D} (e : AxiosError) : Transport D := fun _ _ => Failed e.

(** The health status of the test of [getHealth]: two of the four services. *)
Definition health : HealthStatus :=
  mkHealthStatus healthy "2025-07-30T10:00:00Z"
    (mkServices None
       (Some (mkServiceStatus healthy None (Some 3)
                              (Some ["gpt_4o"; "claude_3_5"]) None))
       (Some (mkServiceStatus healthy None (Some 2) None
                              (Some ["weather_service"])))
       None).

Definition healthTransport : Transport HealthStatus :=
  fun n _ =>
    match n with
    | O => Failed (httpFailure 502 "Bad Gateway")
    | _ => Fulfilled (mkResponse 200 health)
    end.

End Scenes.

(* ================================================================== *)
(** ** Facts about JavaScript values and the validation                *)
(* ================================================================== *)

Lemma truthy_string_nonempty (s : string) :
  truthy s = true <-> s <> EmptyString.
Proof.
  destruct s; cbn; split; intro H; try congruence; try reflexivity.
Qed.

Lemma truthy_option_string (o : option string) :
  truthy o = false <-> o = None \/ o = Some EmptyString.
Proof.
  destruct o as [[|a s]|]; cbn; split; intro H; auto; try discriminate.
  - destruct H as [H|H]; discriminate.
Qed.

Lemma count0_set (cfg : RequestConfig) (k : Z) :
  count0 (set_retryCount cfg k) = k.
Proof.
  unfold count0, or_else, truthy, truthy_Z; cbn.
  destruct (Z.eqb_spec k 0); cbn; congruence.
Qed.

Lemma backoff_set (cfg : RequestConfig) (a : Z) (k : nat) :
  forall from, backoff (set_retryCount cfg a) from k = backoff cfg from k.
Proof.
  induction k as [|k IH]; intro from; cbn [backoff]; [reflexivity|].
  rewrite IH. reflexivity.
Qed.

Lemma delays_backoff (cfg : RequestConfig) (k : nat) :
  forall (a : nat) (from : Z),
    from = Z.of_nat a ->
    delays (backoff cfg from k)
    = map (fun n => 1000 * (Z.of_nat n + 1)) (seq a k).
Proof.
  induction k as [|k IH]; intros a from Hfrom; [reflexivity|].
  cbn [backoff delays flat_map seq map app]. subst from. f_equal.
  apply IH. lia.
Qed.

Lemma attempts_backoff (cfg : RequestConfig) (k : nat) :
  forall from, length (attempts (backoff cfg from k)) = k.
Proof.
  induction k as [|k IH]; intro from; [reflexivity|].
  cbn [backoff attempts flat_map app length].
  f_equal. apply IH.
Qed.

Lemma wire_set (cfg : RequestConfig) (k : Z) :
  wire (set_retryCount cfg k) = wire cfg.
Proof. reflexivity. Qed.

Lemma code_is_true (e : AxiosError) (c : string) :
  code_is e c = true <-> code e = Some c.
Proof.
  unfold code_is. destruct (code e) as [c'|].
  - rewrite String.eqb_eq. split; congruence.
  - split; discriminate.
Qed.

Lemma code_is_false (e : AxiosError) (c : string) :
  code_is e c = false <-> code e <> Some c.
Proof.
  rewrite <- code_is_true. destruct (code_is e c); split; congruence.
Qed.

(** The classifier of the interceptor rejects exactly the terminal failures. *)
Lemma retryable_false_iff (e : AxiosError) :
  retryable e = false <-> terminal e.
Proof.
  unfold retryable, terminal.
  rewrite !orb_false_iff, !code_is_false.
  split.
  - intros [[[H1 H2] H3] H4]. repeat split; auto.
    intros r Hr. rewrite Hr in H4. cbn in H4. lia.
  - intros (H1 & H2 & H3 & H4). repeat split; auto.
    destruct (response e) as [r|]; [|reflexivity].
    specialize (H4 r eq_refl). cbn. lia.
Qed.

Lemma validateEach_wellFormed (ms : list Message) :
  forallb wellFormed ms = true -> validateEach ms = Return tt.
Proof.
  induction ms as [|m ms IH]; cbn [forallb validateEach]; [reflexivity|].
  rewrite andb_true_iff. intros [Hm Hms].
  unfold wellFormed in Hm. rewrite !andb_true_iff in Hm.
  destruct Hm as [[[Hs Hc] Hi] Ht].
  rewrite Hs, Hc, Hi, Ht. cbn. auto.
Qed.

(** The loop stops at the first message that fails a check. *)
Lemma validateEach_app (pre : list Message) (m : Message) (post : list Message) :
  forallb wellFormed pre = true ->
  validateEach (pre ++ m :: post) = validateEach (m :: post).
Proof.
  induction pre as [|p pre IH]; cbn [forallb app]; [reflexivity|].
  rewrite andb_true_iff. intros [Hp Hpre].
  unfold wellFormed in Hp. rewrite !andb_true_iff in Hp.
  destruct Hp as [[[Hs Hc] Hi] Ht].
  cbn [validateEach]. rewrite Hs, Hc, Hi, Ht. cbn. auto.
Qed.

Lemma length_app_cons_nonzero {A} (pre : list A) (x : A) (post : list A) :
  (length (pre ++ x :: post) =? 0)%nat = false.
Proof.
  rewrite length_app. cbn. apply Nat.eqb_neq. lia.
Qed.

Lemma prepare_Many_app (pre : list Message) (m : Message) (post : list Message) :
  forallb wellFormed pre = true ->
  prepareCallRequest (Many (pre ++ m :: post)) =
  match validateEach (m :: post) with
  | Throw t => Throw t
  | Return _ => Return (mkCallRequest (pre ++ m :: post))
  end.
Proof.
  intro H. unfold prepareCallRequest.
  rewrite length_app_cons_nonzero, validateEach_app by exact H.
  reflexivity.
Qed.

(* ================================================================== *)
(** ** Facts about the request loop                                    *)
(* ================================================================== *)

Section RequestFacts.

Context {D : Type}.
Variable transport : Transport D.

(** Without the interceptor a request is one attempt. *)
Lemma request_plain (fuel n : nat) (cfg : RequestConfig) :
  request transport None (S fuel) n cfg =
  Some (match transport n cfg with
        | Fulfilled r => Resolved r
        | Failed e => Rejected (TransportError e)
        end, [Attempt cfg]).
Proof. cbn. destruct (transport n cfg); reflexivity. Qed.

(** A fulfilled attempt settles the request at once. *)
Lemma request_fulfilled (i : option Z) (fuel n : nat) (cfg : RequestConfig)
      (r : AxiosResponse D) :
  transport n cfg = Fulfilled r ->
  request transport i (S fuel) n cfg = Some (Resolved r, [Attempt cfg]).
Proof. intro H. cbn. rewrite H. reflexivity. Qed.

(** A failure the handler does not retry settles the request at once, with
    the error of the attempt. *)
Lemma onRejected_reject_same (maxRetries : Z) (e e' : AxiosError)
      (cfg cfg' : RequestConfig) :
  onRejected maxRetries e cfg = (cfg', RejectWith e') -> e' = e.
Proof.
  unfold onRejected.
  destruct (negb (has_config e) || geb_undef (__retryCount cfg) maxRetries);
    [intro H; inversion H; reflexivity|].
  destruct (retryable e); intro H; inversion H; reflexivity.
Qed.

(** The handler raises the count before it looks at the kind of failure: on
    a terminal failure the config leaves the handler with its count raised,
    and the error is passed on as it came. *)
Lemma onRejected_terminal (maxRetries : Z) (e : AxiosError) (cfg : RequestConfig) :
  has_config e = true ->
  geb_undef (__retryCount cfg) maxRetries = false ->
  retryable e = false ->
  onRejected maxRetries e cfg
  = (set_retryCount cfg (count0 cfg + 1), RejectWith e).
Proof.
  intros Hc Hg Hr. unfold onRejected. rewrite Hc, Hg, Hr. reflexivity.
Qed.

Lemma request_terminal (i : option Z) (fuel n : nat) (cfg : RequestConfig)
      (e : AxiosError) :
  transport n cfg = Failed e ->
  retryable e = false ->
  request transport i (S fuel) n cfg =
  Some (Rejected (TransportError e), [Attempt cfg]).
Proof.
  intros HT Hr. cbn. rewrite HT.
  destruct i as [maxRetries|]; [|reflexivity].
  unfold onRejected. rewrite Hr.
  destruct (negb (has_config e) || geb_undef (__retryCount cfg) maxRetries);
    reflexivity.
Qed.

(** A retried failure: the handler bumps the count, waits 1000 times the
    new count, and sends the config again. *)
Lemma request_retry (maxRetries : Z) (fuel n : nat) (cfg : RequestConfig)
      (e : AxiosError) :
  transport n cfg = Failed e ->
  has_config e = true ->
  geb_undef (__retryCount cfg) maxRetries = false ->
  retryable e = true ->
  request transport (Some maxRetries) (S fuel) n cfg =
  match request transport (Some maxRetries) fuel (S n)
                (set_retryCount cfg (count0 cfg + 1)) with
  | Some (s, t) => Some (s, Attempt cfg :: Delay (1000 * (count0 cfg + 1)) :: t)
  | None => None
  end.
Proof.
  intros HT Hc Hg Hr. cbn. rewrite HT.
  unfold onRejected. rewrite Hc, Hg, Hr. reflexivity.
Qed.

(** Once the count has reached [maxRetries], one attempt settles. *)
Lemma request_exhausted (maxRetries : Z) (fuel n : nat) (cfg : RequestConfig) :
  geb_undef (__retryCount cfg) maxRetries = true ->
  exists s, request transport (Some maxRetries) (S fuel) n cfg
            = Some (s, [Attempt cfg]).
Proof.
  intro Hg. cbn. destruct (transport n cfg) as [r|e]; [eauto|].
  unfold onRejected. rewrite Hg, orb_true_r. eauto.
Qed.

(** The loop settles: fuel for the retries that remain, plus two. *)
Lemma request_settles (maxRetries : Z) (fuel : nat) :
  forall (n : nat) (cfg : RequestConfig),
    (Z.to_nat (maxRetries - count0 cfg) + 2 <= fuel)%nat ->
    exists r, request transport (Some maxRetries) fuel n cfg = Some r.
Proof.
  induction fuel as [|fuel IH]; intros n cfg Hf; [lia|].
  cbn. destruct (transport n cfg) as [r|e]; [eauto|].
  unfold onRejected.
  destruct (negb (has_config e) || geb_undef (__retryCount cfg) maxRetries);
    [eauto|].
  fold (count0 cfg).
  destruct (retryable e); [|eauto].
  set (cfg' := set_retryCount cfg (count0 cfg + 1)).
  destruct (Z_lt_le_dec (count0 cfg + 1) maxRetries) as [Hlt|Hge].
  - destruct (IH (S n) cfg') as [[s t] Hs].
    + unfold cfg'. rewrite count0_set. lia.
    + rewrite Hs. eauto.
  - destruct fuel as [|fuel]; [lia|].
    destruct (request_exhausted maxRetries fuel (S n) cfg') as [s Hs].
    + cbn. apply Z.leb_le. exact Hge.
    + rewrite Hs. eauto.
Qed.

(** Every attempt of a request puts the same method, url, body and
    defaults on the wire, and the first event is the attempt with the
    config given. *)
Lemma request_wire (i : option Z) (fuel : nat) :
  forall (n : nat) (cfg : RequestConfig) s t,
    request transport i fuel n cfg = Some (s, t) ->
    (exists t', t = Attempt cfg :: t')
    /\ Forall (fun c => wire c = wire cfg) (attempts t).
Proof.
  induction fuel as [|fuel IH]; intros n cfg s t; cbn; [discriminate|].
  destruct (transport n cfg) as [r|e].
  - intro H; inversion H; subst. split; [eauto|]. cbn. auto.
  - destruct i as [maxRetries|].
    + destruct (onRejected maxRetries e cfg) as [cfg' [e'|ms]] eqn:Ho.
      * intro H; inversion H; subst. split; [eauto|]. cbn. auto.
      * destruct (request transport (Some maxRetries) fuel (S n) cfg')
          as [[s' t']|] eqn:Hr; [|discriminate].
        intro H; inversion H; subst. split; [eauto|].
        cbn. constructor; [reflexivity|].
        destruct (IH _ _ _ _ Hr) as [_ Hall].
        assert (Hw : wire cfg' = wire cfg).
        { unfold onRejected in Ho.
          destruct (negb (has_config e) || geb_undef (__retryCount cfg) maxRetries);
            [discriminate|].
          destruct (retryable e); inversion Ho. apply wire_set. }
        rewrite <- Hw. exact Hall.
    + intro H; inversion H; subst. split; [eauto|]. cbn. auto.
Qed.

(** [k] retried failures, then a fulfilled attempt. *)
Lemma request_backoff (maxRetries : Z) (k : nat) :
  forall (fuel n : nat) (cfg : RequestConfig) (r : AxiosResponse D),
    (k < fuel)%nat ->
    (forall j, (j < k)%nat ->
               geb_undef (__retryCount (nthConfig cfg j)) maxRetries = false
               /\ exists e, transport (n + j)%nat (nthConfig cfg j) = Failed e
                            /\ has_config e = true /\ retryable e = true) ->
    transport (n + k)%nat (nthConfig cfg k) = Fulfilled r ->
    request transport (Some maxRetries) fuel n cfg
    = Some (Resolved r, Attempt cfg :: backoff cfg (count0 cfg) k).
Proof.
  induction k as [|k IH]; intros fuel n cfg r Hf Hfail Hok.
  - destruct fuel as [|fuel]; [lia|].
    rewrite Nat.add_0_r in Hok. cbn [nthConfig] in Hok.
    rewrite (request_fulfilled _ _ _ _ _ Hok). reflexivity.
  - destruct fuel as [|fuel]; [lia|].
    destruct (Hfail 0%nat ltac:(lia)) as (Hg & e & He & Hc & Hr).
    rewrite Nat.add_0_r in He. cbn [nthConfig] in Hg, He.
    rewrite (request_retry maxRetries fuel n cfg e He Hc Hg Hr).
    set (cfg1 := set_retryCount cfg (count0 cfg + 1)).
    assert (Hn : forall j, nthConfig cfg1 j = nthConfig cfg (S j)).
    { intros [|j]; [reflexivity|].
      unfold nthConfig, cfg1. rewrite count0_set.
      change (set_retryCount (set_retryCount cfg (count0 cfg + 1)) ?x)
        with (set_retryCount cfg x).
      f_equal. lia. }
    rewrite (IH fuel (S n) cfg1 r).
    + unfold cfg1 at 3. rewrite count0_set.
      cbn [backoff]. unfold cfg1. rewrite backoff_set. reflexivity.
    + lia.
    + intros j Hj. rewrite Hn.
      replace (S n + j)%nat with (n + S j)%nat by lia.
      apply Hfail. lia.
    + rewrite Hn. replace (S n + k)%nat with (n + S k)%nat by lia. exact Hok.
Qed.

(** A request rejects with nothing but the error of an attempt. *)
Lemma request_rejects_transport (i : option Z) (fuel : nat) :
  forall (n : nat) (cfg : RequestConfig) th t,
    request transport i fuel n cfg = Some (Rejected th, t) ->
    exists e, th = TransportError e.
Proof.
  induction fuel as [|fuel IH]; intros n cfg th t; cbn; [discriminate|].
  destruct (transport n cfg) as [r|e]; [discriminate|].
  destruct i as [maxRetries|].
  - destruct (onRejected maxRetries e cfg) as [cfg' [e'|ms]].
    + intro H; inversion H; eauto.
    + destruct (request transport (Some maxRetries) fuel (S n) cfg')
        as [[s' t']|] eqn:Hr; [|discriminate].
      intro H; inversion H; subst. eapply IH; eassumption.
  - intro H; inversion H; eauto.
Qed.

End RequestFacts.


(** A fresh request through any instance settles. *)
Lemma send_settles {D} (inst : AxiosInstance) (transport : Transport D)
      (cfg : RequestConfig) :
  __retryCount cfg = None ->
  exists r, send inst transport cfg = Some r.
Proof.
  intro Hc. unfold send, fuel_of.
  destruct (retryInterceptor inst) as [maxRetries|].
  - apply request_settles. unfold count0. rewrite Hc. cbn.
    rewrite Z.sub_0_r. lia.
  - rewrite request_plain. eauto.
Qed.

Lemma fuel_of_succ (inst : AxiosInstance) : exists f, fuel_of inst = S f.
Proof. unfold fuel_of. destruct (retryInterceptor inst); eauto. Qed.

(** A terminal failure of the first attempt settles a request of any
    instance. *)
Lemma send_terminal {D} (inst : AxiosInstance) (transport : Transport D)
      (cfg : RequestConfig) (e : AxiosError) :
  transport 0%nat cfg = Failed e ->
  retryable e = false ->
  send inst transport cfg = Some (Rejected (TransportError e), [Attempt cfg]).
Proof.
  intros HT Hr. unfold send.
  destruct (fuel_of_succ inst) as [f ->].
  apply request_terminal; assumption.
Qed.

Lemma send_fulfilled {D} (inst : AxiosInstance) (transport : Transport D)
      (cfg : RequestConfig) (r : AxiosResponse D) :
  transport 0%nat cfg = Fulfilled r ->
  send inst transport cfg = Some (Resolved r, [Attempt cfg]).
Proof.
  intro HT. unfold send.
  destruct (fuel_of_succ inst) as [f ->].
  apply request_fulfilled; assumption.
Qed.

Lemma send_rejects_transport {D} (inst : AxiosInstance) (transport : Transport D)
      (cfg : RequestConfig) th t :
  send inst transport cfg = Some (Rejected th, t) ->
  exists e, th = TransportError e.
Proof. apply request_rejects_transport. Qed.

Lemma send_wire {D} (inst : AxiosInstance) (transport : Transport D)
      (cfg : RequestConfig) s t :
  send inst transport cfg = Some (s, t) ->
  (exists t', t = Attempt cfg :: t')
  /\ Forall (fun c => wire c = wire cfg) (attempts t).
Proof. apply request_wire. Qed.


(** A fresh request whose first [k] attempts fail with retried failures and
    whose next is fulfilled, [k] within the budget. *)
Lemma send_backoff {D} (inst : AxiosInstance) (T : Transport D)
      (maxRetries : Z) (cfg : RequestConfig) (k : nat) (r : AxiosResponse D) :
  retryInterceptor inst = Some maxRetries ->
  __retryCount cfg = None ->
  Z.of_nat k <= maxRetries ->
  (forall j, (j < k)%nat ->
             exists e, T j (nthConfig cfg j) = Failed e
                       /\ has_config e = true /\ retryable e = true) ->
  T k (nthConfig cfg k) = Fulfilled r ->
  send inst T cfg = Some (Resolved r, Attempt cfg :: backoff cfg 0 k).
Proof.
  intros Hi Hc Hk Hfail Hok. unfold send, fuel_of. rewrite Hi.
  assert (Hz : count0 cfg = 0) by (unfold count0; rewrite Hc; reflexivity).
  replace (backoff cfg 0 k) with (backoff cfg (count0 cfg) k)
    by (rewrite Hz; reflexivity).
  apply request_backoff.
  - lia.
  - intros j Hj. split; [|apply Hfail; exact Hj].
    destruct j as [|j]; cbn [nthConfig]; [rewrite Hc; reflexivity|].
    cbn [set_retryCount __retryCount geb_undef]. apply Z.leb_gt. lia.
  - exact Hok.
Qed.

Lemma retryable_5xx (e : AxiosError) (st : Z) :
  httpStatus e st -> 500 <= st -> retryable e = true.
Proof.
  intros [_ (r & Hr & Hst)] H. unfold retryable. rewrite Hr. cbn.
  apply Z.leb_le in H. rewrite Hst, H. apply orb_true_r.
Qed.

(** What the constructor leaves in the instance. *)
Lemma constructor_instance (options : CubicClientOptions) (c : CubicClient) :
  new_CubicClient options = Return c ->
  defaults_baseURL (httpClient c) = baseUrl options
  /\ defaults_timeout (httpClient c) = or_else (timeout options) (Num 90000)
  /\ defaults_headers (httpClient c) = [("Content-Type", "application/json")]
  /\ retryInterceptor (httpClient c) =
     match retry options with
     | Some (Num z) => if 0 <? z then Some z else None
     | _ => None
     end.
Proof.
  unfold new_CubicClient.
  destruct (negb (truthy (baseUrl options))); [discriminate|].
  destruct (retry options) as [[z|]|].
  - unfold truthy, truthy_number, gtb.
    destruct (Z.ltb_spec 0 z) as [Hz|Hz].
    + destruct (Z.eqb_spec z 0) as [E|E]; [lia|]. cbn.
      intro H; inversion H; subst c. cbn. auto.
    + rewrite andb_false_r.
      intro H; inversion H; subst c. cbn. auto.
  - intro H; inversion H; subst c. cbn. auto.
  - intro H; inversion H; subst c. cbn. auto.
Qed.

(** The scenario of two retried failures and a success, for a fresh request
    through an instance whose interceptor was installed with [maxRetries]
    at least 2. *)
Lemma send_two_retries {D} (inst : AxiosInstance) (T : Transport D)
      (maxRetries : Z) (cfg : RequestConfig) (e1 e2 : AxiosError)
      (r : AxiosResponse D) :
  retryInterceptor inst = Some maxRetries ->
  2 <= maxRetries ->
  __retryCount cfg = None ->
  has_config e1 = true -> retryable e1 = true ->
  has_config e2 = true -> retryable e2 = true ->
  T 0%nat cfg = Failed e1 ->
  T 1%nat (set_retryCount cfg 1) = Failed e2 ->
  T 2%nat (set_retryCount cfg 2) = Fulfilled r ->
  send inst T cfg =
  Some (Resolved r,
        [Attempt cfg; Delay 1000; Attempt (set_retryCount cfg 1);
         Delay 2000; Attempt (set_retryCount cfg 2)]).
Proof.
  intros Hi Hm Hc Hc1 Hr1 Hc2 Hr2 H0 H1 H2.
  unfold send, fuel_of. rewrite Hi.
  assert (Hz : count0 cfg = 0) by (unfold count0; rewrite Hc; reflexivity).
  rewrite (request_retry T maxRetries _ 0 cfg e1 H0 Hc1); [|rewrite Hc; reflexivity|exact Hr1].
  rewrite Hz. change (0 + 1) with 1.
  destruct (Z.to_nat maxRetries) as [|f] eqn:Hf; [lia|].
  rewrite (request_retry T maxRetries _ 1 (set_retryCount cfg 1) e2 H1 Hc2);
    [|cbn; apply Z.leb_gt; lia|exact Hr2].
  rewrite count0_set. change (1 + 1) with 2.
  change (set_retryCount (set_retryCount cfg 1) 2) with (set_retryCount cfg 2).
  destruct f as [|f]; [lia|].
  rewrite (request_fulfilled T _ _ 2 _ r H2).
  reflexivity.
Qed.

(* ================================================================== *)
(** ** Facts about the three checks                                    *)
(* ================================================================== *)

Lemma rejects_of_throw (c : CubicClient) (T : Transport CallResponse)
      (input : MessagesInput) (msg : string) :
  prepareCallRequest input = Throw (Error msg) ->
  rejectsBeforeNetwork c T input msg.
Proof.
  intro H. split.
  - unfold call. rewrite H. reflexivity.
  - intros agentName Hn. unfold callAgent.
    apply truthy_string_nonempty in Hn.
    change (truthy (Some agentName)) with (truthy agentName).
    rewrite Hn, H. reflexivity.
Qed.

Lemma check_sender_content (m : Message) :
  truthy (sender m) = false \/ truthy (content m) = false ->
  prepareCallRequest (One m)
  = Throw (Error "Message must have both sender and content properties")
  /\ forall pre post,
      forallb wellFormed pre = true ->
      prepareCallRequest (Many (pre ++ m :: post))
      = Throw (Error "Each message must have both sender and content properties").
Proof.
  intro H.
  assert (Hb : negb (truthy (sender m)) || negb (truthy (content m)) = true).
  { destruct H as [H|H]; rewrite H; cbn; auto using orb_true_r. }
  split.
  - unfold prepareCallRequest. rewrite Hb. reflexivity.
  - intros pre post Hpre. rewrite prepare_Many_app by exact Hpre.
    cbn [validateEach]. rewrite Hb. reflexivity.
Qed.

Lemma check_sender_id (m : Message) :
  truthy (sender m) = true ->
  truthy (content m) = true ->
  truthy (sender_id m) = false ->
  prepareCallRequest (One m)
  = Throw (Error "Message sender must have an id property")
  /\ forall pre post,
      forallb wellFormed pre = true ->
      prepareCallRequest (Many (pre ++ m :: post))
      = Throw (Error "Each message sender must have an id property").
Proof.
  intros Hs Hc Hi. split.
  - unfold prepareCallRequest. rewrite Hs, Hc, Hi. reflexivity.
  - intros pre post Hpre. rewrite prepare_Many_app by exact Hpre.
    cbn [validateEach]. rewrite Hs, Hc, Hi. reflexivity.
Qed.

Lemma check_type (m : Message) :
  truthy (sender m) = true ->
  truthy (content m) = true ->
  truthy (sender_id m) = true ->
  truthy (type m) = false ->
  prepareCallRequest (One m)
  = Throw (Error "Message must have a type property")
  /\ forall pre post,
      forallb wellFormed pre = true ->
      prepareCallRequest (Many (pre ++ m :: post))
      = Throw (Error "Each message must have a type property").
Proof.
  intros Hs Hc Hi Ht. split.
  - unfold prepareCallRequest. rewrite Hs, Hc, Hi, Ht. reflexivity.
  - intros pre post Hpre. rewrite prepare_Many_app by exact Hpre.
    cbn [validateEach]. rewrite Hs, Hc, Hi, Ht. reflexivity.
Qed.

Lemma prepare_One_wellFormed (m : Message) :
  wellFormed m = true ->
  prepareCallRequest (One m) = Return (mkCallRequest [m]).
Proof.
  unfold wellFormed. rewrite !andb_true_iff. intros [[[Hs Hc] Hi] Ht].
  unfold prepareCallRequest. rewrite Hs, Hc, Hi, Ht. reflexivity.
Qed.

Lemma prepare_Many_wellFormed (ms : list Message) :
  ms <> [] ->
  forallb wellFormed ms = true ->
  prepareCallRequest (Many ms) = Return (mkCallRequest ms).
Proof.
  intros Hne Hall. unfold prepareCallRequest.
  destruct ms as [|m ms]; [congruence|].
  cbn [length Nat.eqb]. rewrite validateEach_wellFormed by exact Hall.
  reflexivity.
Qed.

(** A message that fails some check is stopped by exactly one of the three,
    the first it fails. *)
Lemma illFormed_cases (m : Message) :
  wellFormed m = false ->
  (truthy (sender m) = false \/ truthy (content m) = false)
  \/ (truthy (sender m) = true /\ truthy (content m) = true
      /\ truthy (sender_id m) = false)
  \/ (truthy (sender m) = true /\ truthy (content m) = true
      /\ truthy (sender_id m) = true /\ truthy (type m) = false).
Proof.
  unfold wellFormed.
  destruct (truthy (sender m)), (truthy (content m)), (truthy (sender_id m)),
    (truthy (type m)); cbn; intro H; try discriminate; auto 10.
Qed.

(** An array with an ill-formed member never passes the loop. *)
Lemma validateEach_illFormed (ms : list Message) (m : Message) :
  In m ms -> wellFormed m = false ->
  exists msg, validateEach ms = Throw (Error msg).
Proof.
  induction ms as [|x ms IH]; intros Hin Hm; [destruct Hin|].
  cbn [validateEach].
  destruct (negb (truthy (sender x)) || negb (truthy (content x))) eqn:H1; [eauto|].
  destruct (negb (truthy (sender_id x))) eqn:H2; [eauto|].
  destruct (negb (truthy (type x))) eqn:H3; [eauto|].
  destruct Hin as [->|Hin]; [|auto].
  exfalso. unfold wellFormed in Hm.
  apply orb_false_iff in H1. destruct H1 as [Hs Hc].
  apply negb_false_iff in Hs, Hc, H2, H3.
  rewrite Hs, Hc, H2, H3 in Hm. discriminate.
Qed.

Lemma prepare_illFormed (input : MessagesInput) (m : Message) :
  (input = One m \/ exists ms, input = Many ms /\ In m ms) ->
  wellFormed m = false ->
  exists msg, prepareCallRequest input = Throw (Error msg).
Proof.
  intros [->|(ms & -> & Hin)] Hm.
  - destruct (illFormed_cases m Hm) as [H|[(Hs & Hc & Hi)|(Hs & Hc & Hi & Ht)]].
    + destruct (check_sender_content m H) as [-> _]. eauto.
    + destruct (check_sender_id m Hs Hc Hi) as [-> _]. eauto.
    + destruct (check_type m Hs Hc Hi Ht) as [-> _]. eauto.
  - unfold prepareCallRequest.
    destruct (length ms =? 0)%nat; [eauto|].
    destruct (validateEach_illFormed ms m Hin Hm) as [msg ->]. eauto.
Qed.

(* ================================================================== *)
(** ** The retry policy                                                *)
(* ================================================================== *)

(** C1. With [retry: 3], a dispatch whose transport fails with a 503 on the
    first and the second attempt and answers 200 on the third makes exactly
    three attempts, each with the same method, path and body; it waits
    1000 ms before the second and 2000 ms before the third, and resolves
    with the [content] of the third response.  In general, a fresh request
    whose attempts 0 .. k-1 fail with retried failures and whose attempt k is
    fulfilled (k within the budget) makes k + 1 attempts with the same
    method, path and body and waits 1000 * (n + 1) ms after the failure of
    attempt n; that is the delay the handler asks for at every count. *)
Theorem retry_503_503_200 :
  (forall (options : CubicClientOptions) (c : CubicClient)
          (T : Transport CallResponse) (agentName : string)
          (input : MessagesInput) (requestPayload : CallRequest)
          (path : string) (run : Run string)
          (e1 e2 : AxiosError) (r : AxiosResponse CallResponse),
      retry options = Some (Num 3) ->
      new_CubicClient options = Return c ->
      prepareCallRequest input = Return requestPayload ->
      (path = "/dispatch" /\ run = call c T input
       \/ path = "/dispatch/" ++ encodeURIComponent agentName
          /\ agentName <> EmptyString
          /\ run = callAgent c T (Some agentName) input) ->
      let cfg := merged (httpClient c) POST path (Some requestPayload) in
      httpStatus e1 503 ->
      httpStatus e2 503 ->
      res_status r = 200 ->
      T 0%nat cfg = Failed e1 ->
      T 1%nat (set_retryCount cfg 1) = Failed e2 ->
      T 2%nat (set_retryCount cfg 2) = Fulfilled r ->
      exists t : Trace,
        run = Some (Resolved (res_content (res_data r)), t)
        /\ t = [Attempt cfg; Delay 1000; Attempt (set_retryCount cfg 1);
                Delay 2000; Attempt (set_retryCount cfg 2)]
        /\ map wire (attempts t) = [wire cfg; wire cfg; wire cfg]
        /\ delays t = [1000; 2000])
  /\ (forall (D : Type) (inst : AxiosInstance) (T : Transport D)
             (maxRetries : Z) (cfg : RequestConfig) (k : nat)
             (r : AxiosResponse D),
         retryInterceptor inst = Some maxRetries ->
         __retryCount cfg = None ->
         Z.of_nat k <= maxRetries ->
         (forall n, (n < k)%nat ->
                    exists e, T n (nthConfig cfg n) = Failed e
                              /\ has_config e = true /\ retryable e = true) ->
         T k (nthConfig cfg k) = Fulfilled r ->
         exists t : Trace,
           send inst T cfg = Some (Resolved r, t)
           /\ t = Attempt cfg :: backoff cfg 0 k
           /\ length (attempts t) = S k
           /\ Forall (fun a => wire a = wire cfg) (attempts t)
           /\ delays t = map (fun n => 1000 * (Z.of_nat n + 1)) (seq 0 k))
  /\ (forall (maxRetries : Z) (e : AxiosError) (cfg cfg' : RequestConfig) (ms : Z),
         onRejected maxRetries e cfg = (cfg', RetryAfter ms) ->
         ms = 1000 * (count0 cfg + 1)
         /\ cfg' = set_retryCount cfg (count0 cfg + 1)).
Proof.
  split; [|split].
  - intros options c T agentName input requestPayload path run e1 e2 r
           Hretry Hnew Hprep Hrun cfg He1 He2 Hst H0 H1 H2.
    destruct (constructor_instance _ _ Hnew) as (_ & _ & _ & Hi).
    rewrite Hretry in Hi. cbn in Hi.
    assert (Hsend : send (httpClient c) T cfg =
                    Some (Resolved r,
                          [Attempt cfg; Delay 1000; Attempt (set_retryCount cfg 1);
                           Delay 2000; Attempt (set_retryCount cfg 2)])).
    { apply (send_two_retries _ T 3 cfg e1 e2 r); auto; try lia;
        try (apply (retryable_5xx _ 503); [assumption|lia]).
      - apply He1.
      - apply He2. }
    eexists. split; [|split; [reflexivity|split; reflexivity]].
    destruct Hrun as [[Hp ->]|(Hp & Hn & ->)].
    + unfold call. rewrite Hprep. unfold post.
      subst path. fold cfg. rewrite Hsend. reflexivity.
    + unfold callAgent.
      assert (Ht : truthy (Some agentName) = true).
      { apply truthy_string_nonempty in Hn. exact Hn. }
      rewrite Ht, Hprep. cbn [negb toString]. unfold post.
      rewrite <- Hp. fold cfg. rewrite Hsend. reflexivity.
  - intros D inst T maxRetries cfg k r Hi Hc Hk Hfail Hok.
    pose proof (send_backoff inst T maxRetries cfg k r Hi Hc Hk Hfail Hok) as Hs.
    exists (Attempt cfg :: backoff cfg 0 k).
    split; [exact Hs|]. split; [reflexivity|].
    pose proof (delays_backoff cfg k 0 0 eq_refl) as Hd.
    split; [|split].
    + change (attempts (Attempt cfg :: backoff cfg 0 k))
        with (cfg :: attempts (backoff cfg 0 k)).
      cbn [length]. rewrite attempts_backoff. reflexivity.
    + exact (proj2 (send_wire _ _ _ _ _ Hs)).
    + exact Hd.
  - intros maxRetries e cfg cfg' ms. unfold onRejected.
    destruct (negb (has_config e) || geb_undef (__retryCount cfg) maxRetries);
      [discriminate|].
    fold (count0 cfg).
    destruct (retryable e); intro H; inversion H; auto.
Qed.

Lemma retry_503_503_200_witness :
  (exists t : Trace,
      call Fixtures.retryClient Fixtures.flaky (One Fixtures.hello)
      = Some (Resolved "Response from agent", t)
      /\ length (attempts t) = 3%nat
      /\ delays t = [1000; 2000])
  /\ (exists t : Trace,
         send (httpClient Fixtures.retryClient) Fixtures.flaky
              (merged (httpClient Fixtures.retryClient) POST "/dispatch" None)
         = Some (Resolved (mkResponse 200 Fixtures.reply), t)
         /\ delays t = [1000; 2000])
  /\ snd (onRejected 3 (httpFailure 503 "Service Unavailable")
                     (set_retryCount
                        (merged (httpClient Fixtures.retryClient) GET "/agents" None) 1))
     = RetryAfter 2000.
Proof.
  destruct retry_503_503_200 as (scenario & schedule & law).
  split; [|split].
  - destruct (scenario Fixtures.retryOptions Fixtures.retryClient Fixtures.flaky
                       EmptyString (One Fixtures.hello)
                       (mkCallRequest [Fixtures.hello]) "/dispatch"
                       (call Fixtures.retryClient Fixtures.flaky (One Fixtures.hello))
                       (httpFailure 503 "Service Unavailable")
                       (httpFailure 503 "Service Unavailable")
                       (mkResponse 200 Fixtures.reply))
      as (t & Hrun & Ht & Hw & Hd); try reflexivity.
    + left; split; reflexivity.
    + split; [reflexivity|]. eexists; split; reflexivity.
    + split; [reflexivity|]. eexists; split; reflexivity.
    + exists t. split; [exact Hrun|]. split; [|exact Hd].
      rewrite Ht. reflexivity.
  - destruct (schedule CallResponse (httpClient Fixtures.retryClient) Fixtures.flaky 3
                       (merged (httpClient Fixtures.retryClient) POST "/dispatch" None)
                       2%nat (mkResponse 200 Fixtures.reply))
      as (t & Hs & _ & _ & _ & Hd); try reflexivity.
    + lia.
    + intros n Hn. exists (httpFailure 503 "Service Unavailable").
      destruct n as [|[|n]]; [repeat split..|lia].
    + exists t. split; [exact Hs|exact Hd].
  - destruct (onRejected 3 (httpFailure 503 "Service Unavailable")
                (set_retryCount
                   (merged (httpClient Fixtures.retryClient) GET "/agents" None) 1))
      as [cfg' [e'|ms]] eqn:Ho.
    + vm_compute in Ho. discriminate.
    + destruct (law _ _ _ _ _ Ho) as [Hms _]. rewrite Hms. reflexivity.
Defined.

(** C2. A failure outside the retried classes (not ECONNABORTED, ENOTFOUND
    or ECONNREFUSED, and no status of 500 or more; a 400, say) ends the
    request at the attempt that met it: through any instance, with the
    interceptor installed or not and whatever count the config stands at,
    no further attempt is made and the promise rejects with the very error
    of the attempt (the handler assigns to no property of the error; it has
    by then raised [__retryCount] on the config the error refers to).  A
    dispatch whose first attempt fails so makes exactly one attempt. *)
Theorem terminal_failure_not_retried :
  (forall (D : Type) (T : Transport D) (interceptor : option Z)
          (fuel n : nat) (cfg : RequestConfig) (e : AxiosError),
      terminal e ->
      T n cfg = Failed e ->
      request T interceptor (S fuel) n cfg
      = Some (Rejected (TransportError e), [Attempt cfg]))
  /\ (forall (c : CubicClient) (T : Transport CallResponse) (agentName : string)
             (input : MessagesInput) (requestPayload : CallRequest)
             (path : string) (run : Run string) (e : AxiosError),
         prepareCallRequest input = Return requestPayload ->
         (path = "/dispatch" /\ run = call c T input
          \/ path = "/dispatch/" ++ encodeURIComponent agentName
             /\ agentName <> EmptyString
             /\ run = callAgent c T (Some agentName) input) ->
         let cfg := merged (httpClient c) POST path (Some requestPayload) in
         terminal e ->
         T 0%nat cfg = Failed e ->
         run = Some (Rejected (TransportError e), [Attempt cfg]))
  /\ (forall (c : CubicClient) (A : Type) (T : Transport A) (path : string)
             (e : AxiosError),
         let cfg := merged (httpClient c) GET path None in
         terminal e ->
         T 0%nat cfg = Failed e ->
         get (httpClient c) T path
         = Some (Rejected (TransportError e), [Attempt cfg])).
Proof.
  split; [|split].
  - intros D T i fuel n cfg e Ht HT.
    apply request_terminal; [exact HT|]. apply retryable_false_iff. exact Ht.
  - intros c T agentName input requestPayload path run e Hprep Hrun cfg Ht HT.
    apply retryable_false_iff in Ht.
    pose proof (send_terminal (httpClient c) T cfg e HT Ht) as Hsend.
    destruct Hrun as [[Hp ->]|(Hp & Hn & ->)].
    + unfold call. rewrite Hprep. unfold post.
      subst path. fold cfg. rewrite Hsend. reflexivity.
    + unfold callAgent.
      assert (Hname : truthy (Some agentName) = true).
      { apply truthy_string_nonempty in Hn. exact Hn. }
      rewrite Hname, Hprep. cbn [negb toString]. unfold post.
      rewrite <- Hp. fold cfg. rewrite Hsend. reflexivity.
  - intros c A T path e cfg Ht HT.
    apply retryable_false_iff in Ht.
    unfold get. fold cfg. apply send_terminal; assumption.
Qed.

Lemma terminal_failure_not_retried_witness :
  call Fixtures.retryClient Fixtures.badRequest (One Fixtures.hello)
  = Some (Rejected (TransportError (httpFailure 400 "Bad Request")),
          [Attempt (merged (httpClient Fixtures.retryClient) POST "/dispatch"
                           (Some (mkCallRequest [Fixtures.hello])))])
  /\ request Fixtures.badRequest (Some 3) 1 2
             (set_retryCount
                (merged (httpClient Fixtures.retryClient) POST "/dispatch" None) 2)
     = Some (Rejected (TransportError (httpFailure 400 "Bad Request")),
             [Attempt (set_retryCount
                         (merged (httpClient Fixtures.retryClient) POST "/dispatch" None) 2)])
  /\ get (httpClient Fixtures.retryClient)
         (fun _ _ => Failed (httpFailure 404 "Not Found") : Outcome AgentsResponse)
         "/agents"
     = Some (Rejected (TransportError (httpFailure 404 "Not Found")),
             [Attempt (merged (httpClient Fixtures.retryClient) GET "/agents" None)]).
Proof.
  destruct terminal_failure_not_retried as (loop & dispatch & fetch).
  assert (H400 : terminal (httpFailure 400 "Bad Request")).
  { repeat split; try discriminate.
    intros r Hr. inversion Hr. cbn. lia. }
  assert (H404 : terminal (httpFailure 404 "Not Found")).
  { repeat split; try discriminate.
    intros r Hr. inversion Hr. cbn. lia. }
  split; [|split].
  - apply (dispatch Fixtures.retryClient Fixtures.badRequest EmptyString
                    (One Fixtures.hello) (mkCallRequest [Fixtures.hello])
                    "/dispatch" _ (httpFailure 400 "Bad Request")).
    + reflexivity.
    + left; split; reflexivity.
    + exact H400.
    + reflexivity.
  - apply loop; [exact H400|reflexivity].
  - apply (fetch Fixtures.retryClient AgentsResponse _ "/agents"
                 (httpFailure 404 "Not Found")); [exact H404|reflexivity].
Defined.

(* ================================================================== *)
(** ** The request normalizer                                          *)
(* ================================================================== *)

Section Normalizer.

Variable c : CubicClient.
Variable T : Transport CallResponse.

(** C3, as the code has it.  A single message and the one-element array
    holding it are accepted together, with the same payload, and rejected
    together at the same check; the two errors differ in their first words,
    [Message ...] for the single message and [Each message ...] for the
    array.  A non-empty array of well-formed messages is passed on as it
    is. *)
Theorem normalize_single_vs_singleton :
  (forall m : Message,
      wellFormed m = true ->
      prepareCallRequest (One m) = Return (mkCallRequest [m])
      /\ prepareCallRequest (Many [m]) = Return (mkCallRequest [m]))
  /\ (forall m : Message,
         wellFormed m = false ->
         exists reason : string,
           In reason ["must have both sender and content properties";
                      "sender must have an id property";
                      "must have a type property"]
           /\ prepareCallRequest (One m) = Throw (Error ("Message " ++ reason))
           /\ prepareCallRequest (Many [m]) = Throw (Error ("Each message " ++ reason)))
  /\ (forall ms : list Message,
         ms <> [] ->
         forallb wellFormed ms = true ->
         prepareCallRequest (Many ms) = Return (mkCallRequest ms)).
Proof.
  split; [|split].
  - intros m Hm. split.
    + apply prepare_One_wellFormed; exact Hm.
    + apply prepare_Many_wellFormed; [discriminate|]. cbn. rewrite Hm. reflexivity.
  - intros m Hm.
    destruct (illFormed_cases m Hm) as [H|[(Hs & Hc & Hi)|(Hs & Hc & Hi & Ht)]].
    + destruct (check_sender_content m H) as [H1 H2].
      exists "must have both sender and content properties".
      split; [cbn; auto|]. split; [exact H1|]. exact (H2 [] [] eq_refl).
    + destruct (check_sender_id m Hs Hc Hi) as [H1 H2].
      exists "sender must have an id property".
      split; [cbn; auto|]. split; [exact H1|]. exact (H2 [] [] eq_refl).
    + destruct (check_type m Hs Hc Hi Ht) as [H1 H2].
      exists "must have a type property".
      split; [cbn; auto|]. split; [exact H1|]. exact (H2 [] [] eq_refl).
  - intros ms Hne Hall. apply prepare_Many_wellFormed; assumption.
Qed.

(** C4. The checks run in the order sender and content, [sender.id], [type],
    for a single message as for each message of an array (whose earlier
    messages passed); the first check that fails decides the error, whatever
    else is missing, and nothing is put on the wire.  The text of the error
    is the text of the check after the words [Message ] (single message) or
    [Each message ] (array). *)
Theorem validation_order :
  forall m : Message,
    (truthy (sender m) = false \/ truthy (content m) = false ->
     rejectsBeforeNetwork c T (One m)
       ("Message " ++ "must have both sender and content properties")
     /\ forall pre post,
         forallb wellFormed pre = true ->
         rejectsBeforeNetwork c T (Many (pre ++ m :: post))
           ("Each message " ++ "must have both sender and content properties"))
    /\ (truthy (sender m) = true ->
        truthy (content m) = true ->
        truthy (sender_id m) = false ->
        rejectsBeforeNetwork c T (One m)
          ("Message " ++ "sender must have an id property")
        /\ forall pre post,
            forallb wellFormed pre = true ->
            rejectsBeforeNetwork c T (Many (pre ++ m :: post))
              ("Each message " ++ "sender must have an id property"))
    /\ (truthy (sender m) = true ->
        truthy (content m) = true ->
        truthy (sender_id m) = true ->
        truthy (type m) = false ->
        rejectsBeforeNetwork c T (One m)
          ("Message " ++ "must have a type property")
        /\ forall pre post,
            forallb wellFormed pre = true ->
            rejectsBeforeNetwork c T (Many (pre ++ m :: post))
              ("Each message " ++ "must have a type property")).
Proof.
  intro m. split; [|split].
  - intro H. destruct (check_sender_content m H) as [H1 H2]. split.
    + apply rejects_of_throw. exact H1.
    + intros pre post Hpre. apply rejects_of_throw. apply H2. exact Hpre.
  - intros Hs Hc Hi. destruct (check_sender_id m Hs Hc Hi) as [H1 H2]. split.
    + apply rejects_of_throw. exact H1.
    + intros pre post Hpre. apply rejects_of_throw. apply H2. exact Hpre.
  - intros Hs Hc Hi Ht. destruct (check_type m Hs Hc Hi Ht) as [H1 H2]. split.
    + apply rejects_of_throw. exact H1.
    + intros pre post Hpre. apply rejects_of_throw. apply H2. exact Hpre.
Qed.

(** C5. An array of no messages is rejected with the error
    [messages array cannot be empty] and nothing is put on the wire; a single
    message never meets that error: when it is accepted, the payload is the
    one-element array holding it. *)
Theorem empty_array_rejected :
  prepareCallRequest (Many []) = Throw (Error "messages array cannot be empty")
  /\ rejectsBeforeNetwork c T (Many []) "messages array cannot be empty"
  /\ (forall m : Message,
         prepareCallRequest (One m) <> Throw (Error "messages array cannot be empty")
         /\ forall t : Trace,
             call c T (One m)
             <> Some (Rejected (Error "messages array cannot be empty"), t))
  /\ (forall (m : Message) (requestPayload : CallRequest),
         prepareCallRequest (One m) = Return requestPayload ->
         messages requestPayload = [m]).
Proof.
  split; [reflexivity|]. split; [apply rejects_of_throw; reflexivity|]. split.
  - intro m.
    destruct (wellFormed m) eqn:Hm.
    + unfold call. rewrite (prepare_One_wellFormed m Hm). split; [discriminate|].
      intro t. unfold post.
      destruct (send (httpClient c) T
                  (merged (httpClient c) POST "/dispatch" (Some (mkCallRequest [m]))))
        as [[[r|e] t']|] eqn:Hs; cbn; try discriminate.
      destruct (send_rejects_transport _ _ _ _ _ Hs) as [e' ->]. discriminate.
    + destruct (illFormed_cases m Hm) as [H|[(Hs & Hc & Hi)|(Hs & Hc & Hi & Ht)]].
      * destruct (check_sender_content m H) as [H1 _].
        unfold call. rewrite H1. split; [|intro t]; discriminate.
      * destruct (check_sender_id m Hs Hc Hi) as [H1 _].
        unfold call. rewrite H1. split; [|intro t]; discriminate.
      * destruct (check_type m Hs Hc Hi Ht) as [H1 _].
        unfold call. rewrite H1. split; [|intro t]; discriminate.
  - intros m requestPayload H.
    destruct (wellFormed m) eqn:Hm.
    + rewrite (prepare_One_wellFormed m Hm) in H. inversion H. reflexivity.
    + destruct (prepare_illFormed (One m) m (or_introl eq_refl) Hm) as [msg Hmsg].
      rewrite Hmsg in H. discriminate.
Qed.

(** C9, as the code has it.  The checks test truthiness, in order, and the
    first that fails decides.  A message whose [content] is the empty string
    is rejected at the first check although the property is there, given
    alone or in an array whose earlier messages pass the checks; one whose
    [sender.id] is the empty string is rejected at the second check when its
    [content] is not empty (when both are empty the first check decides).
    A dispatch given such a message, alone or anywhere in an array, rejects
    and puts nothing on the wire. *)
Theorem empty_strings_rejected :
  forall m : Message,
    (content m = Some EmptyString ->
     rejectsBeforeNetwork c T (One m)
       "Message must have both sender and content properties"
     /\ forall pre post,
         forallb wellFormed pre = true ->
         rejectsBeforeNetwork c T (Many (pre ++ m :: post))
           "Each message must have both sender and content properties")
    /\ (forall s : Sender,
           sender m = Some s ->
           id s = Some EmptyString ->
           truthy (content m) = true ->
           rejectsBeforeNetwork c T (One m)
             "Message sender must have an id property"
           /\ forall pre post,
               forallb wellFormed pre = true ->
               rejectsBeforeNetwork c T (Many (pre ++ m :: post))
                 "Each message sender must have an id property")
    /\ (forall input : MessagesInput,
           (input = One m \/ exists ms, input = Many ms /\ In m ms) ->
           (content m = Some EmptyString
            \/ exists s, sender m = Some s /\ id s = Some EmptyString) ->
           exists msg : string, rejectsBeforeNetwork c T input msg).
Proof.
  intro m. split; [|split].
  - intro Hc.
    assert (H : truthy (sender m) = false \/ truthy (content m) = false).
    { right. rewrite Hc. reflexivity. }
    destruct (check_sender_content m H) as [H1 H2]. split.
    + apply rejects_of_throw. exact H1.
    + intros pre post Hpre. apply rejects_of_throw. apply H2. exact Hpre.
  - intros s Hs Hid Hc.
    assert (Hs' : truthy (sender m) = true) by (rewrite Hs; reflexivity).
    assert (Hi : truthy (sender_id m) = false).
    { unfold sender_id. rewrite Hs, Hid. reflexivity. }
    destruct (check_sender_id m Hs' Hc Hi) as [H1 H2]. split.
    + apply rejects_of_throw. exact H1.
    + intros pre post Hpre. apply rejects_of_throw. apply H2. exact Hpre.
  - intros input Hin Hbad.
    assert (Hm : wellFormed m = false).
    { unfold wellFormed. destruct Hbad as [Hc|(s & Hs & Hid)].
      - rewrite Hc. cbn. rewrite andb_false_r. reflexivity.
      - unfold sender_id. rewrite Hs, Hid. cbn.
        rewrite andb_false_r. reflexivity. }
    destruct (prepare_illFormed input m Hin Hm) as [msg Hmsg].
    exists msg. apply rejects_of_throw. exact Hmsg.
Qed.

End Normalizer.

(** C3, as the spec words it, fails: the error of a single message without a
    sender is not the error of the one-element array holding it. *)
Lemma normalize_single_vs_singleton_differ :
  prepareCallRequest (One Fixtures.noSender)
  = Throw (Error "Message must have both sender and content properties")
  /\ prepareCallRequest (Many [Fixtures.noSender])
     = Throw (Error "Each message must have both sender and content properties")
  /\ prepareCallRequest (One Fixtures.noSender)
     <> prepareCallRequest (Many [Fixtures.noSender]).
Proof.
  split; [reflexivity|]. split; [reflexivity|].
  cbn. intro H. inversion H.
Qed.

Lemma normalize_single_vs_singleton_witness :
  (prepareCallRequest (One Fixtures.hello) = Return (mkCallRequest [Fixtures.hello])
   /\ prepareCallRequest (Many [Fixtures.hello])
      = Return (mkCallRequest [Fixtures.hello]))
  /\ (exists reason : string,
         prepareCallRequest (One Fixtures.noSenderId)
         = Throw (Error ("Message " ++ reason))
         /\ prepareCallRequest (Many [Fixtures.noSenderId])
            = Throw (Error ("Each message " ++ reason)))
  /\ prepareCallRequest (Many [Fixtures.hello; Fixtures.hiThere])
     = Return (mkCallRequest [Fixtures.hello; Fixtures.hiThere]).
Proof.
  destruct normalize_single_vs_singleton as (accepted & rejected & reshape).
  split; [|split].
  - apply accepted. reflexivity.
  - destruct (rejected Fixtures.noSenderId eq_refl) as (reason & _ & H1 & H2).
    exists reason. split; assumption.
  - apply reshape; [discriminate|reflexivity].
Defined.

Lemma validation_order_witness :
  rejectsBeforeNetwork Fixtures.retryClient Fixtures.steady
    (Many [Fixtures.hello; Fixtures.noSender; Fixtures.noType])
    "Each message must have both sender and content properties"
  /\ rejectsBeforeNetwork Fixtures.retryClient Fixtures.steady
       (One Fixtures.noSenderId) "Message sender must have an id property"
  /\ rejectsBeforeNetwork Fixtures.retryClient Fixtures.steady
       (One Fixtures.noType) "Message must have a type property".
Proof.
  split; [|split].
  - destruct (validation_order Fixtures.retryClient Fixtures.steady Fixtures.noSender)
      as (first & _ & _).
    destruct first as [_ inArray]; [left; reflexivity|].
    apply (inArray [Fixtures.hello] [Fixtures.noType]). reflexivity.
  - destruct (validation_order Fixtures.retryClient Fixtures.steady Fixtures.noSenderId)
      as (_ & second & _).
    destruct second as [single _]; try reflexivity. exact single.
  - destruct (validation_order Fixtures.retryClient Fixtures.steady Fixtures.noType)
      as (_ & _ & third).
    destruct third as [single _]; try reflexivity. exact single.
Defined.

Lemma empty_array_rejected_witness :
  call Fixtures.plainClient Fixtures.steady (Many [])
  = Some (Rejected (Error "messages array cannot be empty"), [])
  /\ messages (mkCallRequest [Fixtures.hello]) = [Fixtures.hello].
Proof.
  destruct (empty_array_rejected Fixtures.plainClient Fixtures.steady)
    as (_ & [viaCall _] & _ & wrapped).
  split; [exact viaCall|].
  apply wrapped. reflexivity.
Defined.

Lemma empty_strings_rejected_witness :
  rejectsBeforeNetwork Fixtures.plainClient Fixtures.steady
    (One Fixtures.emptyContent)
    "Message must have both sender and content properties"
  /\ rejectsBeforeNetwork Fixtures.plainClient Fixtures.steady
       (Many [Fixtures.hello; Fixtures.emptySenderId])
       "Each message sender must have an id property"
  /\ exists msg : string,
      rejectsBeforeNetwork Fixtures.plainClient Fixtures.steady
        (Many [Fixtures.noType; Fixtures.emptyContent]) msg.
Proof.
  split; [|split].
  - destruct (empty_strings_rejected Fixtures.plainClient Fixtures.steady
                                     Fixtures.emptyContent) as (first & _ & _).
    destruct first as [single _]; [reflexivity|exact single].
  - destruct (empty_strings_rejected Fixtures.plainClient Fixtures.steady
                                     Fixtures.emptySenderId) as (_ & second & _).
    destruct (second (mkSender (Some EmptyString) (Some "John")))
      as [_ inArray]; try reflexivity.
    apply (inArray [Fixtures.hello] []). reflexivity.
  - destruct (empty_strings_rejected Fixtures.plainClient Fixtures.steady
                                     Fixtures.emptyContent) as (_ & _ & third).
    apply third.
    + right. exists [Fixtures.noType; Fixtures.emptyContent].
      split; [reflexivity|]. right; left; reflexivity.
    + left. reflexivity.
Defined.

(** C9, as the spec words it, fails: a message whose [sender.id] is the
    empty string and whose [content] is empty too is rejected with the error
    of the first check, not with [sender must have an id property]; and a
    message with an empty [content] that follows a message without [type] in
    an array is not the one the error is about. *)
Lemma empty_id_error_differs :
  sender_id Scenes.emptyBoth = Some EmptyString
  /\ call Fixtures.plainClient Fixtures.steady (One Scenes.emptyBoth)
     = Some (Rejected (Error "Message must have both sender and content properties"),
             [])
  /\ call Fixtures.plainClient Fixtures.steady (One Scenes.emptyBoth)
     <> Some (Rejected (Error "Message sender must have an id property"), [])
  /\ content Fixtures.emptyContent = Some EmptyString
  /\ call Fixtures.plainClient Fixtures.steady
          (Many [Fixtures.noType; Fixtures.emptyContent])
     = Some (Rejected (Error "Each message must have a type property"), []).
Proof.
  split; [reflexivity|]. split; [reflexivity|]. split; [|split; reflexivity].
  cbn. intro H. inversion H.
Qed.


(* ================================================================== *)
(** ** Facts about the methods of the client                           *)
(* ================================================================== *)

Lemma unwrap_Some {D A} (f : AxiosResponse D -> A) r (s : Settled A) (t : Trace) :
  unwrap f r = Some (s, t) ->
  exists s', r = Some (s', t).
Proof.
  destruct r as [[[resp|e] t']|]; cbn; intro H; inversion H; subst; eauto.
Qed.

(** The attempts of a request made through an instance carry its defaults. *)
Lemma send_merged {D} (inst : AxiosInstance) (T : Transport D)
      (m : Method) (u : string) (d : option CallRequest) s t :
  send inst T (merged inst m u d) = Some (s, t) ->
  Forall (fun cfg => method cfg = m /\ url cfg = u /\ data cfg = d
                     /\ cfg_timeout cfg = defaults_timeout inst) (attempts t).
Proof.
  intro H. destruct (send_wire _ _ _ _ _ H) as [_ Hall].
  eapply Forall_impl; [|exact Hall].
  intros cfg Hw. unfold wire in Hw. cbn in Hw. inversion Hw. auto.
Qed.

Lemma truthy_agentName (agentName : string) :
  agentName <> EmptyString -> truthy (Some agentName) = true.
Proof. intro H. apply truthy_string_nonempty in H. exact H. Qed.

Lemma client_timeouts (c : CubicClient) :
  everyAttempt c (fun cfg => cfg_timeout cfg = defaults_timeout (httpClient c)).
Proof.
  assert (Hsend : forall D (T : Transport D) m u d s t,
             send (httpClient c) T (merged (httpClient c) m u d) = Some (s, t) ->
             Forall (fun cfg => cfg_timeout cfg = defaults_timeout (httpClient c))
                    (attempts t)).
  { intros D T m u d s t H. eapply Forall_impl; [|exact (send_merged _ _ _ _ _ _ _ H)].
    cbn. intros cfg H'. apply H'. }
  repeat split.
  - intros T input s t. unfold call.
    destruct (prepareCallRequest input) as [pl|th].
    + intro H. apply unwrap_Some in H. destruct H as [s' H]. eapply Hsend. exact H.
    + intro H; inversion H. constructor.
  - intros T agentName input s t. unfold callAgent.
    destruct (negb (truthy agentName)); [intro H; inversion H; constructor|].
    destruct (prepareCallRequest input) as [pl|th].
    + intro H. apply unwrap_Some in H. destruct H as [s' H]. eapply Hsend. exact H.
    + intro H; inversion H. constructor.
  - intros T s t H. apply unwrap_Some in H. destruct H as [s' H]. eapply Hsend. exact H.
  - intros T s t H. apply unwrap_Some in H. destruct H as [s' H]. eapply Hsend. exact H.
Qed.



Lemma falsy_number (t : option number) :
  truthy t = false <-> t = None \/ t = Some (Num 0) \/ t = Some NaN.
Proof.
  destruct t as [[z|]|].
  - change (truthy (Some (Num z))) with (negb (z =? 0)).
    rewrite negb_false_iff, Z.eqb_eq. split.
    + intros ->. auto.
    + intros [H|[H|H]]; inversion H. reflexivity.
  - split; auto.
  - split; auto.
Qed.

(* ================================================================== *)
(** ** The constructor                                                 *)
(* ================================================================== *)



(** C10. A [timeout] option that is falsy (0 or NaN) is treated as an
    omitted one: the constructor builds the same client, and every attempt
    of every method carries the default of 90000 ms. *)
Theorem falsy_timeout_is_default :
  (forall t : option number,
      truthy t = false <-> t = None \/ t = Some (Num 0) \/ t = Some NaN)
  /\ (forall options : CubicClientOptions,
         truthy (timeout options) = false ->
         new_CubicClient options
         = new_CubicClient (mkOptions (baseUrl options) None (retry options))
         /\ forall c : CubicClient,
             new_CubicClient options = Return c ->
             defaults_timeout (httpClient c) = Num 90000
             /\ everyAttempt c (fun cfg => cfg_timeout cfg = Num 90000)).
Proof.
  split; [exact falsy_number|].
  intros options Ht.
  assert (Hor : or_else (timeout options) (Num 90000) = Num 90000).
  { unfold or_else. destruct (timeout options) as [x|]; [|reflexivity].
    change (truthy (Some x)) with (truthy x) in Ht. rewrite Ht. reflexivity. }
  split.
  - unfold new_CubicClient. cbn [baseUrl timeout retry]. rewrite Hor. reflexivity.
  - intros c Hnew.
    destruct (constructor_instance _ _ Hnew) as (_ & Hto & _).
    rewrite Hor in Hto.
    split; [exact Hto|]. rewrite <- Hto. apply client_timeouts.
Qed.

Lemma falsy_timeout_is_default_witness :
  new_CubicClient (mkOptions Fixtures.localhost (Some (Num 0)) (Some (Num 3)))
  = Return Fixtures.retryClient
  /\ new_CubicClient (mkOptions Fixtures.localhost (Some NaN) None)
     = Return Fixtures.plainClient
  /\ (truthy (Some (Num 0)) = false <->
      Some (Num 0) = None \/ Some (Num 0) = Some (Num 0) \/ Some (Num 0) = Some NaN).
Proof.
  destruct falsy_timeout_is_default as (falsy & same).
  split; [|split].
  - destruct (same (mkOptions Fixtures.localhost (Some (Num 0)) (Some (Num 3))))
      as [H _]; [reflexivity|].
    rewrite H. reflexivity.
  - destruct (same (mkOptions Fixtures.localhost (Some NaN) None))
      as [H _]; [reflexivity|].
    rewrite H. reflexivity.
  - apply falsy.
Defined.

(* ================================================================== *)
(** ** The remote operations                                           *)
(* ================================================================== *)

Lemma unreservedUnit_not_surrogate (u : N) :
  Utf16.unreservedUnit u = true ->
  Utf16.isLeading u = false /\ Utf16.isTrailing u = false.
Proof.
  unfold Utf16.unreservedUnit, Utf16.isLeading, Utf16.isTrailing, in_range.
  rewrite andb_true_iff, N.ltb_lt. intros [Hu _].
  split; apply andb_false_iff; left; apply N.leb_gt; lia.
Qed.

Lemma leading_not_trailing (u : N) :
  Utf16.isTrailing u = true -> Utf16.isLeading u = false.
Proof.
  unfold Utf16.isLeading, Utf16.isTrailing, in_range.
  rewrite andb_true_iff, !N.leb_le. intros [Hu _].
  apply andb_false_iff; right; apply N.leb_gt; lia.
Qed.

(** [encodeURIComponent] returns exactly on the well-formed strings; on the
    others it throws [URIError]. *)
Lemma encode_wellFormed (n : nat) :
  forall s : Utf16.jsstring,
    (length s <= n)%nat ->
    (Utf16.isWellFormed s = true
     /\ exists t, Utf16.encodeURIComponent s = Return t)
    \/ (Utf16.isWellFormed s = false
        /\ Utf16.encodeURIComponent s = Throw URIError).
Proof.
  induction n as [|n IH]; intros [|u r] Hlen; cbn [length] in Hlen;
    try lia; try (left; split; [reflexivity|eexists; reflexivity]).
  cbn [Utf16.encodeURIComponent Utf16.isWellFormed].
  destruct (Utf16.unreservedUnit u) eqn:Hu.
  - destruct (unreservedUnit_not_surrogate u Hu) as [-> ->].
    destruct (IH r ltac:(lia)) as [[Hw [t ->]]|[Hw ->]]; [left|right]; eauto.
  - destruct (Utf16.isTrailing u) eqn:Ht.
    + rewrite (leading_not_trailing u Ht). right. auto.
    + destruct (Utf16.isLeading u).
      * destruct r as [|v r']; [right; auto|].
        destruct (Utf16.isTrailing v); [|right; auto].
        cbn [length] in Hlen. cbn [andb].
        destruct (IH r' ltac:(lia)) as [[Hw [t ->]]|[Hw ->]]; [left|right]; eauto.
      * destruct (IH r ltac:(lia)) as [[Hw [t ->]]|[Hw ->]]; [left|right]; eauto.
Qed.

Lemma encode_returns (s : Utf16.jsstring) :
  Utf16.isWellFormed s = true ->
  exists t, Utf16.encodeURIComponent s = Return t.
Proof.
  intro Hw. destruct (encode_wellFormed (length s) s (le_n _)) as [[_ H]|[H _]];
    [exact H|congruence].
Qed.

Lemma encode_throws (s : Utf16.jsstring) :
  Utf16.isWellFormed s = false ->
  Utf16.encodeURIComponent s = Throw URIError.
Proof.
  intro Hw. destruct (encode_wellFormed (length s) s (le_n _)) as [[H _]|[_ H]];
    [congruence|exact H].
Qed.

(** On code units below 256 the encoder in full is the encoder of [Js]. *)
Lemma encode_unit (c : ascii) (r : Utf16.jsstring) :
  Utf16.encodeURIComponent (N_of_ascii c :: r)
  = match Utf16.encodeURIComponent r with
    | Return t =>
        Return ((if unreserved c then String c EmptyString
                 else String.concat EmptyString
                        (map escapeOctet (Js.utf8 (N_of_ascii c)))) ++ t)
    | Throw th => Throw th
    end.
Proof.
  destruct c as [[] [] [] [] [] [] [] []]; reflexivity.
Qed.

Lemma encode_units (s : string) :
  Utf16.encodeURIComponent (Utf16.units s) = Return (Js.encodeURIComponent s).
Proof.
  induction s as [|c s IH]; [reflexivity|].
  change (Utf16.units (String c s)) with (N_of_ascii c :: Utf16.units s).
  rewrite encode_unit, IH. reflexivity.
Qed.

(** On agent names of code units below 256 the method in full is
    [callAgent]. *)
Lemma callAgent_units (c : CubicClient) (T : Transport CallResponse)
      (agentName : option string) (input : MessagesInput) :
  Utf16.callAgent c T (option_map Utf16.units agentName) input
  = callAgent c T agentName input.
Proof.
  unfold Utf16.callAgent, callAgent.
  destruct agentName as [[|a name]|]; try reflexivity.
  change (truthy (option_map Utf16.units (Some (String a name)))) with true.
  change (truthy (Some (String a name))) with true. cbn [negb].
  destruct (prepareCallRequest input) as [pl|th]; [|reflexivity].
  cbn [option_map Utf16.toString toString]. rewrite encode_units. reflexivity.
Qed.




(** C8. [getAgents] resolves with the list found in [availableAgents] of the
    response, as it is: same names, same order, duplicates kept. *)
Theorem getAgents_verbatim :
  forall (c : CubicClient) (T : Transport AgentsResponse),
    let cfg := merged (httpClient c) GET "/agents" None in
    (forall r t,
        send (httpClient c) T cfg = Some (Resolved r, t) ->
        getAgents c T = Some (Resolved (availableAgents (res_data r)), t))
    /\ (forall (st : Z) (names : list string),
           T 0%nat cfg = Fulfilled (mkResponse st (mkAgentsResponse names)) ->
           getAgents c T = Some (Resolved names, [Attempt cfg])).
Proof.
  intros c T cfg. split.
  - intros r t Hs. unfold getAgents, get. fold cfg. rewrite Hs. reflexivity.
  - intros st names Hr. unfold getAgents, get.
    fold cfg. rewrite (send_fulfilled _ _ _ _ Hr). reflexivity.
Qed.

Lemma getAgents_verbatim_witness :
  getAgents Fixtures.retryClient Fixtures.agentsTransport
  = Some (Resolved ["gpt_4o"; "claude_3_5"; "gpt_4o"; "weather_agent"],
          [Attempt (merged (httpClient Fixtures.retryClient) GET "/agents" None)]).
Proof.
  destruct (getAgents_verbatim Fixtures.retryClient Fixtures.agentsTransport)
    as [_ first].
  apply (first 200 Fixtures.roster). reflexivity.
Defined.


(* ================================================================== *)
(** ** The shape of every run of the request loop                      *)
(* ================================================================== *)

Lemma nthConfig_shift (cfg : RequestConfig) (j : nat) :
  nthConfig (set_retryCount cfg (count0 cfg + 1)) j = nthConfig cfg (S j).
Proof.
  destruct j as [|j]; [reflexivity|].
  unfold nthConfig. rewrite count0_set.
  change (set_retryCount (set_retryCount cfg (count0 cfg + 1)) ?x)
    with (set_retryCount cfg x).
  f_equal. lia.
Qed.

Lemma onRejected_cases (maxRetries : Z) (e : AxiosError) (cfg : RequestConfig) :
  (onRejected maxRetries e cfg = (set_retryCount cfg (count0 cfg + 1),
                                  RetryAfter (1000 * (count0 cfg + 1)))
   /\ has_config e = true
   /\ geb_undef (__retryCount cfg) maxRetries = false
   /\ retryable e = true)
  \/ (snd (onRejected maxRetries e cfg) = RejectWith e
      /\ (has_config e = false
          \/ geb_undef (__retryCount cfg) maxRetries = true
          \/ retryable e = false)).
Proof.
  unfold onRejected.
  destruct (has_config e); cbn [negb orb]; [|right; auto].
  destruct (geb_undef (__retryCount cfg) maxRetries); [right; auto|].
  fold (count0 cfg).
  destruct (retryable e); [left; auto|right; auto].
Qed.

Section Shape.

Context {D : Type}.
Variable T : Transport D.
Variable maxRetries : Z.

(** Whatever the transport does, a settled request has made [k] retries for
    some [k]: the attempts before the last failed with retried failures and
    the outcome is that of the last. *)
Lemma request_shape (fuel : nat) :
  forall (n : nat) (cfg : RequestConfig) s t,
    request T (Some maxRetries) fuel n cfg = Some (s, t) ->
    exists k : nat,
      t = Attempt cfg :: backoff cfg (count0 cfg) k
      /\ (forall j, (j < k)%nat ->
                    geb_undef (__retryCount (nthConfig cfg j)) maxRetries = false
                    /\ exists e, T (n + j)%nat (nthConfig cfg j) = Failed e
                                 /\ has_config e = true /\ retryable e = true)
      /\ endsWith maxRetries T (n + k) (nthConfig cfg k) s.
Proof.
  induction fuel as [|fuel IH]; intros n cfg s t; cbn [request]; [discriminate|].
  destruct (T n cfg) as [r|e] eqn:HT.
  - intro H; inversion H; subst. exists 0%nat.
    split; [reflexivity|]. split; [intros j Hj; lia|].
    unfold endsWith. rewrite Nat.add_0_r. cbn [nthConfig]. rewrite HT. reflexivity.
  - destruct (onRejected_cases maxRetries e cfg)
      as [(Ho & Hc & Hg & Hr)|[Ho Hwhy]].
    + rewrite Ho.
      set (cfg1 := set_retryCount cfg (count0 cfg + 1)).
      destruct (request T (Some maxRetries) fuel (S n) cfg1)
        as [[s' t']|] eqn:Hreq; [|discriminate].
      intro H; inversion H; subst s' t. clear H.
      destruct (IH _ _ _ _ Hreq) as (k & Ht & Hbefore & Hlast).
      exists (S k). split; [|split].
      * rewrite Ht. subst cfg1. rewrite count0_set.
        cbn [backoff]. rewrite backoff_set. reflexivity.
      * intros [|j] Hj.
        -- rewrite Nat.add_0_r. cbn [nthConfig]. split; [exact Hg|]. eauto.
        -- replace (n + S j)%nat with (S n + j)%nat by lia.
           rewrite <- nthConfig_shift. apply Hbefore. lia.
      * replace (n + S k)%nat with (S n + k)%nat by lia.
        rewrite <- nthConfig_shift. exact Hlast.
    + destruct (onRejected maxRetries e cfg) as [cfg' d]. cbn [snd] in Ho. subst d.
      intro H; inversion H; subst. exists 0%nat.
      split; [reflexivity|]. split; [intros j Hj; lia|].
      unfold endsWith. rewrite Nat.add_0_r. cbn [nthConfig]. rewrite HT. auto.
Qed.

End Shape.

Lemma totalDelay_backoff (cfg : RequestConfig) (k : nat) :
  2 * totalDelay (Attempt cfg :: backoff cfg 0 k)
  = 1000 * Z.of_nat k * (Z.of_nat k + 1).
Proof.
  unfold totalDelay.
  change (delays (Attempt cfg :: backoff cfg 0 k)) with (delays (backoff cfg 0 k)).
  assert (H : forall (a : nat) (from : Z),
             from = Z.of_nat a ->
             2 * fold_right Z.add 0 (delays (backoff cfg from k))
             = 1000 * Z.of_nat k * (2 * from + Z.of_nat k + 1)).
  { induction k as [|k IH]; intros a from Hfrom; [cbn; lia|].
    cbn [backoff delays flat_map app fold_right].
    change (flat_map _ (backoff cfg (from + 1) k))
      with (delays (backoff cfg (from + 1) k)).
    rewrite Z.mul_add_distr_l, (IH (S a) (from + 1)) by lia. nia. }
  rewrite (H 0%nat 0 eq_refl). ring.
Qed.

(** The schedule of a fresh request, for every transport. *)
Lemma fresh_request_schedule :
  forall (D : Type) (inst : AxiosInstance) (T : Transport D)
         (maxRetries : Z) (cfg : RequestConfig),
    retryInterceptor inst = Some maxRetries ->
    0 < maxRetries ->
    __retryCount cfg = None ->
    exists (s : Settled (AxiosResponse D)) (k : nat),
      send inst T cfg = Some (s, Attempt cfg :: backoff cfg 0 k)
      /\ Z.of_nat k <= maxRetries
      /\ (forall j, (j < k)%nat ->
                    exists e, T j (nthConfig cfg j) = Failed e
                              /\ has_config e = true /\ retryable e = true)
      /\ endsWith maxRetries T k (nthConfig cfg k) s.
Proof.
  intros D inst T maxRetries cfg Hi Hpos Hc.
  destruct (send_settles inst T cfg Hc) as [[s t] Hs].
  assert (Hz : count0 cfg = 0) by (unfold count0; rewrite Hc; reflexivity).
  pose proof Hs as Hs'. unfold send in Hs'. rewrite Hi in Hs'.
  destruct (request_shape T maxRetries _ _ _ _ _ Hs') as (k & Ht & Hbefore & Hlast).
  rewrite Hz in Ht. subst t. cbn [Nat.add] in Hbefore, Hlast.
  exists s, k. split; [exact Hs|]. split; [|split].
  - destruct k as [|[|k]]; try lia.
    destruct (Hbefore (S k) ltac:(lia)) as [Hg _].
    cbn [nthConfig set_retryCount __retryCount geb_undef] in Hg.
    apply Z.leb_gt in Hg. lia.
  - intros j Hj. apply Hbefore. exact Hj.
  - exact Hlast.
Qed.

Lemma attempts_schedule (cfg : RequestConfig) (k : nat) :
  length (attempts (Attempt cfg :: backoff cfg 0 k)) = S k.
Proof.
  change (attempts (Attempt cfg :: backoff cfg 0 k))
    with (cfg :: attempts (backoff cfg 0 k)).
  cbn [length]. rewrite attempts_backoff. reflexivity.
Qed.

(** X1. The schedule of a fresh request through an instance with the
    interceptor, for [maxRetries] a positive integer (the numbers of the
    model; a fractional or infinite [retry] is outside it), whatever the
    transport does: the request settles, after k retries for
    some k not above [maxRetries]; its trace is the first attempt and the
    linear backoff of k steps, so it makes k + 1 attempts and waits
    1000, 2000, ..., 1000 k ms; the attempts before the last failed with
    retried failures, and the outcome is that of the last attempt. *)
Theorem send_schedule :
  forall (D : Type) (inst : AxiosInstance) (T : Transport D)
         (maxRetries : Z) (cfg : RequestConfig),
    retryInterceptor inst = Some maxRetries ->
    0 < maxRetries ->
    __retryCount cfg = None ->
    exists (s : Settled (AxiosResponse D)) (k : nat),
      send inst T cfg = Some (s, Attempt cfg :: backoff cfg 0 k)
      /\ Z.of_nat k <= maxRetries
      /\ length (attempts (Attempt cfg :: backoff cfg 0 k)) = S k
      /\ delays (Attempt cfg :: backoff cfg 0 k)
         = map (fun n => 1000 * (Z.of_nat n + 1)) (seq 0 k)
      /\ (forall j, (j < k)%nat ->
                    exists e, T j (nthConfig cfg j) = Failed e
                              /\ has_config e = true /\ retryable e = true)
      /\ endsWith maxRetries T k (nthConfig cfg k) s.
Proof.
  intros D inst T maxRetries cfg Hi Hpos Hc.
  destruct (fresh_request_schedule D inst T maxRetries cfg Hi Hpos Hc)
    as (s & k & Hs & Hk & Hbefore & Hlast).
  exists s, k.
  split; [exact Hs|]. split; [exact Hk|].
  split; [apply attempts_schedule|].
  split; [exact (delays_backoff cfg k 0 0 eq_refl)|].
  split; [exact Hbefore|exact Hlast].
Qed.

Lemma send_schedule_witness :
  exists (s : Settled (AxiosResponse CallResponse)) (k : nat),
    send (httpClient Fixtures.retryClient) Scenes.down
         (merged (httpClient Fixtures.retryClient) POST "/dispatch" None)
    = Some (s, Attempt (merged (httpClient Fixtures.retryClient) POST "/dispatch" None)
               :: backoff (merged (httpClient Fixtures.retryClient) POST "/dispatch" None)
                          0 k)
    /\ Z.of_nat k <= 3.
Proof.
  destruct (send_schedule CallResponse (httpClient Fixtures.retryClient) Scenes.down 3
              (merged (httpClient Fixtures.retryClient) POST "/dispatch" None))
    as (s & k & Hs & Hk & _); try reflexivity.
  exists s, k. split; [exact Hs|exact Hk].
Defined.

(* ================================================================== *)
(** ** Bounds, exhaustion and the classes of failure                   *)
(* ================================================================== *)

Lemma retryable_true_iff (e : AxiosError) :
  retryable e = true <-> retriedClass e.
Proof.
  unfold retryable, retriedClass.
  rewrite !orb_true_iff, !code_is_true. split.
  - intros [[[H|H]|H]|H]; auto.
    destruct (response e) as [r|]; [|discriminate].
    cbn in H. apply Z.leb_le in H. right; right; right. eauto.
  - intros [H|[H|[H|(r & Hr & Hst)]]]; auto.
    right. rewrite Hr. cbn. apply Z.leb_le. exact Hst.
Qed.

(** A property of the traces of requests is a property of the runs of every
    method, once it holds of the empty trace. *)
Lemma everyRun_intro (c : CubicClient) (P : Trace -> Prop) :
  P [] ->
  (forall D (T : Transport D) m u d s t,
      send (httpClient c) T (merged (httpClient c) m u d) = Some (s, t) -> P t) ->
  everyRun c P.
Proof.
  intros Hnil Hsend. repeat split.
  - intros T input s t. unfold call.
    destruct (prepareCallRequest input) as [pl|th].
    + intro H. apply unwrap_Some in H. destruct H as [s' H]. eapply Hsend. exact H.
    + intro H; inversion H. exact Hnil.
  - intros T agentName input s t. unfold callAgent.
    destruct (negb (truthy agentName)); [intro H; inversion H; exact Hnil|].
    destruct (prepareCallRequest input) as [pl|th].
    + intro H. apply unwrap_Some in H. destruct H as [s' H]. eapply Hsend. exact H.
    + intro H; inversion H. exact Hnil.
  - intros T s t H. apply unwrap_Some in H. destruct H as [s' H]. eapply Hsend. exact H.
  - intros T s t H. apply unwrap_Some in H. destruct H as [s' H]. eapply Hsend. exact H.
Qed.

Lemma unwrap_settles {D A} (f : AxiosResponse D -> A) (inst : AxiosInstance)
      (T : Transport D) (m : Method) (u : string) (d : option CallRequest) :
  exists r, unwrap f (send inst T (merged inst m u d)) = Some r.
Proof.
  destruct (send_settles inst T (merged inst m u d) eq_refl) as [[[r|e] t] ->];
    cbn; eauto.
Qed.

Lemma client_settles (c : CubicClient) : alwaysSettles c.
Proof.
  repeat split.
  - intros T input. unfold call.
    destruct (prepareCallRequest input); [apply unwrap_settles|eauto].
  - intros T agentName input. unfold callAgent.
    destruct (negb (truthy agentName)); [eauto|].
    destruct (prepareCallRequest input); [apply unwrap_settles|eauto].
  - intro T. apply unwrap_settles.
  - intro T. apply unwrap_settles.
Qed.

(** X2. A client built with [retry: z], z a positive integer, never loops:
    every method settles whatever the transport does, with at most z + 1
    attempts on the wire and at most 500 z (z + 1) ms spent waiting between
    them. *)
Theorem retry_is_bounded :
  forall (options : CubicClientOptions) (c : CubicClient) (z : Z),
    retry options = Some (Num z) ->
    0 < z ->
    new_CubicClient options = Return c ->
    alwaysSettles c
    /\ everyRun c (fun t => Z.of_nat (length (attempts t)) <= z + 1
                            /\ 0 <= totalDelay t <= 500 * z * (z + 1)).
Proof.
  intros options c z Hr Hz Hnew. split; [apply client_settles|].
  destruct (constructor_instance _ _ Hnew) as (_ & _ & _ & Hi).
  rewrite Hr in Hi. destruct (Z.ltb_spec 0 z) as [_|]; [|lia].
  apply everyRun_intro.
  - unfold totalDelay. cbn [attempts delays flat_map fold_right length Z.of_nat].
    split; [lia|]. split; [lia|]. apply Z.mul_nonneg_nonneg; lia.
  - intros D T m u d s t Hs.
    destruct (fresh_request_schedule D (httpClient c) T z (merged (httpClient c) m u d)
                            Hi Hz eq_refl)
      as (s' & k & Hs' & Hk & _).
    rewrite Hs in Hs'. inversion Hs'; subst s' t. clear Hs'.
    rewrite attempts_schedule.
    pose proof (totalDelay_backoff (merged (httpClient c) m u d) k) as Htot.
    split; [lia|]. nia.
Qed.

Lemma retry_is_bounded_witness :
  alwaysSettles Fixtures.retryClient
  /\ everyRun Fixtures.retryClient
              (fun t => Z.of_nat (length (attempts t)) <= 3 + 1
                        /\ 0 <= totalDelay t <= 500 * 3 * (3 + 1)).
Proof.
  apply (retry_is_bounded Fixtures.retryOptions Fixtures.retryClient 3);
    [reflexivity|lia|reflexivity].
Defined.

(** X3. When the budget runs out, for [maxRetries] a positive integer: if
    every attempt of a fresh request fails with a retried failure, the
    request makes exactly [maxRetries] + 1 attempts and rejects with the
    error of the last one. *)
Theorem retries_exhausted :
  forall (D : Type) (inst : AxiosInstance) (T : Transport D)
         (maxRetries : Z) (cfg : RequestConfig),
    retryInterceptor inst = Some maxRetries ->
    0 < maxRetries ->
    __retryCount cfg = None ->
    (forall n, Z.of_nat n <= maxRetries ->
               exists e, T n (nthConfig cfg n) = Failed e
                         /\ has_config e = true /\ retryable e = true) ->
    let last := Z.to_nat maxRetries in
    exists e,
      T last (nthConfig cfg last) = Failed e
      /\ send inst T cfg
         = Some (Rejected (TransportError e), Attempt cfg :: backoff cfg 0 last)
      /\ Z.of_nat (length (attempts (Attempt cfg :: backoff cfg 0 last)))
         = maxRetries + 1.
Proof.
  intros D inst T maxRetries cfg Hi Hpos Hc Hfail last.
  destruct (fresh_request_schedule D inst T maxRetries cfg Hi Hpos Hc)
    as (s & k & Hs & Hk & _ & Hlast).
  destruct (Hfail k Hk) as (e & He & Hcfg & Hr).
  unfold endsWith in Hlast. rewrite He in Hlast.
  destruct Hlast as [-> [Hno|[Hg|Hno]]]; try congruence.
  assert (Hkm : k = last).
  { destruct k as [|k]; cbn [nthConfig] in Hg.
    - rewrite Hc in Hg. discriminate.
    - cbn [set_retryCount __retryCount geb_undef] in Hg.
      apply Z.leb_le in Hg. unfold count0 in Hg. rewrite Hc in Hg. cbn in Hg.
      unfold last. lia. }
  subst k. exists e. split; [exact He|]. split; [exact Hs|].
  rewrite attempts_schedule. unfold last. lia.
Qed.

Lemma retries_exhausted_witness :
  send (httpClient Fixtures.retryClient) (Scenes.down (D := CallResponse))
       (merged (httpClient Fixtures.retryClient) GET "/health" None)
  = Some (Rejected (TransportError Scenes.refused),
          Attempt (merged (httpClient Fixtures.retryClient) GET "/health" None)
          :: backoff (merged (httpClient Fixtures.retryClient) GET "/health" None) 0 3).
Proof.
  assert (Hfail : forall n, Z.of_nat n <= 3 ->
            exists e,
              Scenes.down (D := CallResponse) n
                (nthConfig (merged (httpClient Fixtures.retryClient) GET "/health" None) n)
              = Failed e
              /\ has_config e = true /\ retryable e = true).
  { intros n _. exists Scenes.refused. repeat split. }
  destruct (retries_exhausted CallResponse (httpClient Fixtures.retryClient)
              Scenes.down 3
              (merged (httpClient Fixtures.retryClient) GET "/health" None)
              eq_refl eq_refl eq_refl Hfail)
    as (e & He & Hs & _).
  inversion He; subst e. exact Hs.
Defined.

(** X4. An error that carries no config is never retried, whatever its code
    or status and whatever budget is left: one attempt, and the promise
    rejects with that error. *)
Theorem foreign_error_not_retried :
  forall (D : Type) (T : Transport D) (interceptor : option Z)
         (fuel n : nat) (cfg : RequestConfig) (e : AxiosError),
    T n cfg = Failed e ->
    has_config e = false ->
    request T interceptor (S fuel) n cfg
    = Some (Rejected (TransportError e), [Attempt cfg])
    /\ forall inst : AxiosInstance,
        n = 0%nat ->
        send inst T cfg = Some (Rejected (TransportError e), [Attempt cfg]).
Proof.
  intros D T i fuel n cfg e HT Hc.
  assert (H : forall f, request T i (S f) n cfg
                        = Some (Rejected (TransportError e), [Attempt cfg])).
  { intro f. cbn [request]. rewrite HT. destruct i as [maxRetries|]; [|reflexivity].
    unfold onRejected. rewrite Hc. reflexivity. }
  split; [apply H|].
  intros inst ->. unfold send.
  destruct (fuel_of_succ inst) as [f ->].
  cbn [request]. rewrite HT.
  destruct (retryInterceptor inst) as [maxRetries|]; [|reflexivity].
  unfold onRejected. rewrite Hc. reflexivity.
Qed.

Lemma foreign_error_not_retried_witness :
  send (httpClient Fixtures.retryClient)
       (Scenes.stub (D := CallResponse) Scenes.strayTimeout)
       (merged (httpClient Fixtures.retryClient) POST "/dispatch" None)
  = Some (Rejected (TransportError Scenes.strayTimeout),
          [Attempt (merged (httpClient Fixtures.retryClient) POST "/dispatch" None)]).
Proof.
  destruct (foreign_error_not_retried CallResponse (Scenes.stub Scenes.strayTimeout)
              (Some 3) 0 0
              (merged (httpClient Fixtures.retryClient) POST "/dispatch" None)
              Scenes.strayTimeout eq_refl eq_refl) as [_ H].
  apply H. reflexivity.
Defined.

(** X5. With the interceptor installed, a fresh request whose first attempt
    fails with an error of axios goes on to a second attempt, 1000 ms later
    and with the count 1, exactly when the failure has one of the codes
    ECONNABORTED, ENOTFOUND, ECONNREFUSED or a status of 500 or more;
    otherwise it ends after the one attempt. *)
Theorem retried_iff_class :
  forall (D : Type) (inst : AxiosInstance) (T : Transport D)
         (maxRetries : Z) (cfg : RequestConfig) (e : AxiosError),
    retryInterceptor inst = Some maxRetries ->
    0 < maxRetries ->
    __retryCount cfg = None ->
    T 0%nat cfg = Failed e ->
    has_config e = true ->
    exists s t,
      send inst T cfg = Some (s, t)
      /\ (retriedClass e ->
          exists t', t = Attempt cfg :: Delay 1000
                               :: Attempt (set_retryCount cfg 1) :: t')
      /\ (~ retriedClass e ->
          t = [Attempt cfg] /\ s = Rejected (TransportError e)).
Proof.
  intros D inst T maxRetries cfg e Hi Hpos Hc HT Hcfg.
  destruct (fresh_request_schedule D inst T maxRetries cfg Hi Hpos Hc)
    as (s & k & Hs & Hk & Hbefore & Hlast).
  assert (Hz : count0 cfg = 0) by (unfold count0; rewrite Hc; reflexivity).
  exists s, (Attempt cfg :: backoff cfg 0 k). split; [exact Hs|]. split.
  - intro Hclass. apply retryable_true_iff in Hclass.
    destruct k as [|k].
    + unfold endsWith in Hlast. cbn [nthConfig] in Hlast. rewrite HT in Hlast.
      destruct Hlast as [_ [H|[H|H]]]; try congruence.
      rewrite Hc in H. discriminate.
    + cbn [backoff]. eauto.
  - intro Hclass.
    destruct k as [|k].
    + unfold endsWith in Hlast. cbn [nthConfig] in Hlast. rewrite HT in Hlast.
      destruct Hlast as [-> _]. split; reflexivity.
    + destruct (Hbefore 0%nat ltac:(lia)) as (e' & He' & _ & Hr).
      cbn [nthConfig] in He'. rewrite HT in He'. inversion He'; subst e'.
      apply retryable_true_iff in Hr. contradiction.
Qed.

Lemma retried_iff_class_witness :
  (exists s t t',
      send (httpClient Fixtures.retryClient)
           (Scenes.stub (D := CallResponse) (httpFailure 500 "Internal Server Error"))
           (merged (httpClient Fixtures.retryClient) POST "/dispatch" None)
      = Some (s, t)
      /\ t = Attempt (merged (httpClient Fixtures.retryClient) POST "/dispatch" None)
             :: Delay 1000
             :: Attempt (set_retryCount
                           (merged (httpClient Fixtures.retryClient) POST "/dispatch" None) 1)
             :: t')
  /\ (exists s t,
         send (httpClient Fixtures.retryClient)
              (Scenes.stub (D := CallResponse) (httpFailure 499 "Client Closed Request"))
              (merged (httpClient Fixtures.retryClient) POST "/dispatch" None)
         = Some (s, t)
         /\ t = [Attempt (merged (httpClient Fixtures.retryClient) POST "/dispatch" None)]).
Proof.
  split.
  - destruct (retried_iff_class CallResponse (httpClient Fixtures.retryClient)
                (Scenes.stub (httpFailure 500 "Internal Server Error")) 3
                (merged (httpClient Fixtures.retryClient) POST "/dispatch" None)
                (httpFailure 500 "Internal Server Error"))
      as (s & t & Hs & Hyes & _); try reflexivity.
    destruct Hyes as [t' Ht'].
    + right; right; right. eexists. split; [reflexivity|]. cbn. lia.
    + exists s, t, t'. split; assumption.
  - destruct (retried_iff_class CallResponse (httpClient Fixtures.retryClient)
                (Scenes.stub (httpFailure 499 "Client Closed Request")) 3
                (merged (httpClient Fixtures.retryClient) POST "/dispatch" None)
                (httpFailure 499 "Client Closed Request"))
      as (s & t & Hs & _ & Hno); try reflexivity.
    destruct Hno as [Ht _].
    + intros [H|[H|[H|(r & Hr & Hst)]]]; try discriminate.
      inversion Hr; subst r. cbn in Hst. lia.
    + exists s, t. split; assumption.
Defined.


(* ================================================================== *)
(** ** The methods, request by request                                 *)
(* ================================================================== *)

Lemma validateEach_Return (ms : list Message) :
  validateEach ms = Return tt -> forallb wellFormed ms = true.
Proof.
  induction ms as [|m ms IH]; cbn [validateEach forallb]; [reflexivity|].
  unfold wellFormed.
  destruct (truthy (sender m)), (truthy (content m)); cbn; try discriminate.
  destruct (truthy (sender_id m)); cbn; try discriminate.
  destruct (truthy (type m)); cbn; try discriminate.
  exact IH.
Qed.

Lemma validateEach_Throw (ms : list Message) (th : Thrown) :
  validateEach ms = Throw th ->
  exists msg, th = Error msg /\ In msg normalizerErrors.
Proof.
  induction ms as [|m ms IH]; cbn [validateEach]; [discriminate|].
  destruct (negb (truthy (sender m)) || negb (truthy (content m))).
  { intro H; inversion H. eexists; split; [reflexivity|]. cbn. auto 10. }
  destruct (negb (truthy (sender_id m))).
  { intro H; inversion H. eexists; split; [reflexivity|]. cbn. auto 10. }
  destruct (negb (truthy (type m))).
  { intro H; inversion H. eexists; split; [reflexivity|]. cbn. auto 10. }
  exact IH.
Qed.

Lemma prepare_Throw (input : MessagesInput) (th : Thrown) :
  prepareCallRequest input = Throw th ->
  exists msg, th = Error msg /\ In msg normalizerErrors.
Proof.
  destruct input as [m|ms]; cbn [prepareCallRequest].
  - destruct (negb (truthy (sender m)) || negb (truthy (content m))).
    { intro H; inversion H. eexists; split; [reflexivity|]. cbn. auto 10. }
    destruct (negb (truthy (sender_id m))).
    { intro H; inversion H. eexists; split; [reflexivity|]. cbn. auto 10. }
    destruct (negb (truthy (type m))).
    { intro H; inversion H. eexists; split; [reflexivity|]. cbn. auto 10. }
    discriminate.
  - destruct (length ms =? 0)%nat.
    { intro H; inversion H. eexists; split; [reflexivity|]. cbn. auto 10. }
    destruct (validateEach ms) as [u|th'] eqn:Hv; [discriminate|].
    intro H; inversion H; subst th'. exact (validateEach_Throw ms th Hv).
Qed.

(** The payloads the normalizer returns. *)
Lemma prepare_Return (input : MessagesInput) (requestPayload : CallRequest) :
  prepareCallRequest input = Return requestPayload <->
  (exists m, input = One m /\ wellFormed m = true
             /\ requestPayload = mkCallRequest [m])
  \/ (exists ms, input = Many ms /\ ms <> [] /\ forallb wellFormed ms = true
                 /\ requestPayload = mkCallRequest ms).
Proof.
  split.
  - destruct input as [m|ms].
    + intro H. left. exists m. split; [reflexivity|].
      destruct (wellFormed m) eqn:Hm.
      * rewrite (prepare_One_wellFormed m Hm) in H. inversion H. auto.
      * destruct (prepare_illFormed (One m) m (or_introl eq_refl) Hm) as [msg Hmsg].
        rewrite Hmsg in H. discriminate.
    + intro H. right. exists ms. split; [reflexivity|].
      cbn [prepareCallRequest] in H.
      destruct ms as [|m ms]; [discriminate|]. cbn [length Nat.eqb] in H.
      destruct (validateEach (m :: ms)) as [[]|th] eqn:Hv; [|discriminate].
      inversion H. split; [discriminate|]. split; [|reflexivity].
      apply validateEach_Return. exact Hv.
  - intros [(m & -> & Hm & ->)|(ms & -> & Hne & Hall & ->)].
    + apply prepare_One_wellFormed. exact Hm.
    + apply prepare_Many_wellFormed; assumption.
Qed.

Lemma prepare_soundBody (c : CubicClient) (u : string) (input : MessagesInput)
      (requestPayload : CallRequest) :
  prepareCallRequest input = Return requestPayload ->
  soundBody (merged (httpClient c) POST u (Some requestPayload)).
Proof.
  intro H. exists requestPayload. split; [reflexivity|].
  apply prepare_Return in H.
  destruct H as [(m & _ & Hm & ->)|(ms & _ & Hne & Hall & ->)]; cbn [messages].
  - split; [discriminate|]. cbn. rewrite Hm. reflexivity.
  - split; assumption.
Qed.

Lemma send_fromWire {D A} (f : AxiosResponse D -> A) (inst : AxiosInstance)
      (T : Transport D) (cfg : RequestConfig) (s : Settled A) (t : Trace) :
  unwrap f (send inst T cfg) = Some (s, t) -> fromWire s t.
Proof.
  destruct (send inst T cfg) as [[[r|th] t']|] eqn:Hs; cbn [unwrap];
    intro H; inversion H; subst; clear H.
  - destruct (send_wire _ _ _ _ _ Hs) as [[t'' ->] _]. split; eauto.
  - destruct (send_wire _ _ _ _ _ Hs) as [[t'' ->] _].
    destruct (send_rejects_transport _ _ _ _ _ Hs) as [e ->]. split; eauto.
Qed.

(** X6. [call], for an input the normalizer accepts: the body is the array
    of the messages given, in their order (a single message as the
    one-element array); every attempt is a POST to [/dispatch] with that
    body; the method resolves with the [content] of the response the request
    resolves with and rejects with the error the request rejects with. *)
Theorem call_contract :
  forall (c : CubicClient) (T : Transport CallResponse) (input : MessagesInput)
         (requestPayload : CallRequest),
    prepareCallRequest input = Return requestPayload ->
    let cfg := merged (httpClient c) POST "/dispatch" (Some requestPayload) in
    messages requestPayload
    = match input with One m => [m] | Many ms => ms end
    /\ (exists s t,
           call c T input = Some (s, Attempt cfg :: t)
           /\ Forall (fun a => method a = POST /\ url a = "/dispatch"
                               /\ data a = Some requestPayload)
                     (attempts (Attempt cfg :: t)))
    /\ (forall r t,
           send (httpClient c) T cfg = Some (Resolved r, t) ->
           call c T input = Some (Resolved (res_content (res_data r)), t))
    /\ (forall th t,
           send (httpClient c) T cfg = Some (Rejected th, t) ->
           call c T input = Some (Rejected th, t)).
Proof.
  intros c T input requestPayload Hp cfg.
  assert (Hcall : call c T input
                  = unwrap (fun response => res_content (res_data response))
                           (send (httpClient c) T cfg)).
  { unfold call. rewrite Hp. reflexivity. }
  split; [|split; [|split]].
  - apply prepare_Return in Hp.
    destruct Hp as [(m & -> & _ & ->)|(ms & -> & _ & _ & ->)]; reflexivity.
  - destruct (send_settles (httpClient c) T cfg eq_refl) as [[s t] Hs].
    destruct (send_wire _ _ _ _ _ Hs) as [[t' ->] _].
    pose proof (send_merged _ _ _ _ _ _ _ Hs) as Hall.
    rewrite Hcall, Hs.
    destruct s as [r|e]; cbn [unwrap]; do 2 eexists; (split; [reflexivity|]);
      (eapply Forall_impl; [|exact Hall]); cbn; intros a Ha; tauto.
  - intros r t Hs. rewrite Hcall, Hs. reflexivity.
  - intros th t Hs. rewrite Hcall, Hs. reflexivity.
Qed.

Lemma call_contract_witness :
  messages (mkCallRequest [Fixtures.hello; Fixtures.hiThere])
  = [Fixtures.hello; Fixtures.hiThere]
  /\ call Fixtures.retryClient Fixtures.flaky (Many [Fixtures.hello; Fixtures.hiThere])
     = Some (Resolved "Response from agent",
             Attempt (merged (httpClient Fixtures.retryClient) POST "/dispatch"
                             (Some (mkCallRequest [Fixtures.hello; Fixtures.hiThere])))
             :: backoff (merged (httpClient Fixtures.retryClient) POST "/dispatch"
                                (Some (mkCallRequest [Fixtures.hello; Fixtures.hiThere])))
                        0 2).
Proof.
  destruct (call_contract Fixtures.retryClient Fixtures.flaky
              (Many [Fixtures.hello; Fixtures.hiThere])
              (mkCallRequest [Fixtures.hello; Fixtures.hiThere]) eq_refl)
    as (Hbody & _ & Hres & _).
  split; [exact Hbody|].
  apply (Hres (mkResponse 200 Fixtures.reply)). reflexivity.
Defined.

(** X7. The two GET methods: every attempt of [getAgents] is a GET of
    [/agents] and every attempt of [getHealth] a GET of [/health], without a
    body; [getHealth] resolves with the whole body of the response the
    request resolves with, as it is, and both reject with the error the
    request rejects with. *)
Theorem get_methods :
  forall c : CubicClient,
    (forall T : Transport AgentsResponse,
        let cfg := merged (httpClient c) GET "/agents" None in
        (exists s t,
            getAgents c T = Some (s, Attempt cfg :: t)
            /\ Forall (fun a => method a = GET /\ url a = "/agents" /\ data a = None)
                      (attempts (Attempt cfg :: t)))
        /\ (forall th t,
               send (httpClient c) T cfg = Some (Rejected th, t) ->
               getAgents c T = Some (Rejected th, t)))
    /\ (forall T : Transport HealthStatus,
           let cfg := merged (httpClient c) GET "/health" None in
           (exists s t,
               getHealth c T = Some (s, Attempt cfg :: t)
               /\ Forall (fun a => method a = GET /\ url a = "/health" /\ data a = None)
                         (attempts (Attempt cfg :: t)))
           /\ (forall r t,
                  send (httpClient c) T cfg = Some (Resolved r, t) ->
                  getHealth c T = Some (Resolved (res_data r), t))
           /\ (forall th t,
                  send (httpClient c) T cfg = Some (Rejected th, t) ->
                  getHealth c T = Some (Rejected th, t))).
Proof.
  intro c. split.
  - intros T cfg. split.
    + destruct (send_settles (httpClient c) T cfg eq_refl) as [[s t] Hs].
      destruct (send_wire _ _ _ _ _ Hs) as [[t' ->] _].
      pose proof (send_merged _ _ _ _ _ _ _ Hs) as Hall.
      unfold getAgents, get. fold cfg. rewrite Hs.
      destruct s as [r|e]; cbn [unwrap]; do 2 eexists; (split; [reflexivity|]);
        (eapply Forall_impl; [|exact Hall]); cbn; intros a Ha; tauto.
    + intros th t Hs. unfold getAgents, get. fold cfg. rewrite Hs. reflexivity.
  - intros T cfg. split; [|split].
    + destruct (send_settles (httpClient c) T cfg eq_refl) as [[s t] Hs].
      destruct (send_wire _ _ _ _ _ Hs) as [[t' ->] _].
      pose proof (send_merged _ _ _ _ _ _ _ Hs) as Hall.
      unfold getHealth, get. fold cfg. rewrite Hs.
      destruct s as [r|e]; cbn [unwrap]; do 2 eexists; (split; [reflexivity|]);
        (eapply Forall_impl; [|exact Hall]); cbn; intros a Ha; tauto.
    + intros r t Hs. unfold getHealth, get. fold cfg. rewrite Hs. reflexivity.
    + intros th t Hs. unfold getHealth, get. fold cfg. rewrite Hs. reflexivity.
Qed.

Lemma get_methods_witness :
  getHealth Fixtures.retryClient Scenes.healthTransport
  = Some (Resolved Scenes.health,
          [Attempt (merged (httpClient Fixtures.retryClient) GET "/health" None);
           Delay 1000;
           Attempt (set_retryCount
                      (merged (httpClient Fixtures.retryClient) GET "/health" None) 1)])
  /\ getAgents Fixtures.plainClient (Scenes.stub Scenes.networkError)
     = Some (Rejected (TransportError Scenes.networkError),
             [Attempt (merged (httpClient Fixtures.plainClient) GET "/agents" None)]).
Proof.
  destruct (get_methods Fixtures.retryClient) as [_ Hhealth].
  destruct (get_methods Fixtures.plainClient) as [Hagents _].
  split.
  - destruct (Hhealth Scenes.healthTransport) as (_ & Hres & _).
    apply (Hres (mkResponse 200 Scenes.health)). reflexivity.
  - destruct (Hagents (Scenes.stub Scenes.networkError)) as (_ & Hrej).
    apply Hrej. reflexivity.
Defined.

(** X8. The normalizer returns a payload exactly for a single well-formed
    message (the payload is the one-element array) and for a non-empty array
    of well-formed messages (the payload is the array); so every body
    [call] and [callAgent] put on the wire, on every attempt, is a non-empty
    array of well-formed messages. *)
Theorem normalizer_accepts_iff :
  (forall (input : MessagesInput) (requestPayload : CallRequest),
      prepareCallRequest input = Return requestPayload <->
      (exists m, input = One m /\ wellFormed m = true
                 /\ requestPayload = mkCallRequest [m])
      \/ (exists ms, input = Many ms /\ ms <> [] /\ forallb wellFormed ms = true
                     /\ requestPayload = mkCallRequest ms))
  /\ (forall (c : CubicClient) (T : Transport CallResponse) (input : MessagesInput)
             s t,
         call c T input = Some (s, t) -> Forall soundBody (attempts t))
  /\ (forall (c : CubicClient) (T : Transport CallResponse)
             (agentName : option string) (input : MessagesInput) s t,
         callAgent c T agentName input = Some (s, t) ->
         Forall soundBody (attempts t)).
Proof.
  split; [exact prepare_Return|].
  assert (Hsound : forall (c : CubicClient) (T : Transport CallResponse) u input pl s t,
             prepareCallRequest input = Return pl ->
             send (httpClient c) T (merged (httpClient c) POST u (Some pl)) = Some (s, t) ->
             Forall soundBody (attempts t)).
  { intros c T u input pl s t Hp Hs.
    destruct (prepare_soundBody c u input pl Hp) as (p & Hd & Hne & Hall).
    cbn [merged data] in Hd. inversion Hd; subst p.
    eapply Forall_impl; [|exact (send_merged _ _ _ _ _ _ _ Hs)].
    intros a (_ & _ & Ha & _). exists pl. auto. }
  split.
  - intros c T input s t. unfold call.
    destruct (prepareCallRequest input) as [pl|th] eqn:Hp.
    + intro H. apply unwrap_Some in H. destruct H as [s' H].
      exact (Hsound c T _ input pl s' t Hp H).
    + intro H; inversion H. constructor.
  - intros c T agentName input s t. unfold callAgent.
    destruct (negb (truthy agentName)); [intro H; inversion H; constructor|].
    destruct (prepareCallRequest input) as [pl|th] eqn:Hp.
    + intro H. apply unwrap_Some in H. destruct H as [s' H].
      exact (Hsound c T _ input pl s' t Hp H).
    + intro H; inversion H. constructor.
Qed.

Lemma normalizer_accepts_iff_witness :
  ((exists m, One Fixtures.hello = One m /\ wellFormed m = true
              /\ mkCallRequest [Fixtures.hello] = mkCallRequest [m])
   \/ (exists ms, One Fixtures.hello = Many ms /\ ms <> []
                  /\ forallb wellFormed ms = true
                  /\ mkCallRequest [Fixtures.hello] = mkCallRequest ms))
  /\ Forall soundBody
            (attempts
               (Attempt (merged (httpClient Fixtures.retryClient) POST "/dispatch"
                                (Some (mkCallRequest [Fixtures.hello])))
                :: backoff (merged (httpClient Fixtures.retryClient) POST "/dispatch"
                                   (Some (mkCallRequest [Fixtures.hello]))) 0 2)).
Proof.
  destruct normalizer_accepts_iff as (Hiff & Hcall & _).
  split.
  - apply (Hiff (One Fixtures.hello) (mkCallRequest [Fixtures.hello])). reflexivity.
  - apply (Hcall Fixtures.retryClient Fixtures.flaky (One Fixtures.hello)
                 (Resolved "Response from agent")).
    reflexivity.
Defined.

(** X9. How a method can end.  [call] and [callAgent] reject with an error
    of the client's own only before anything is put on the wire, and the
    text is one of the seven of the normalizer (or [agentName is required]
    for [callAgent]); [callAgent] can also reject with the [URIError] of
    [encodeURIComponent], before anything is put on the wire and only for an
    agent name with an unpaired surrogate; once a request is on the wire a
    method resolves or rejects with the error of the transport, not wrapped.
    [getAgents] and [getHealth] always go to the wire. *)
Theorem how_methods_end :
  forall c : CubicClient,
    (forall T input s t,
        call c T input = Some (s, t) ->
        ownError normalizerErrors s t \/ fromWire s t)
    /\ (forall T (agentName : option Utf16.jsstring) input s t,
           Utf16.callAgent c T agentName input = Some (s, t) ->
           ownError ("agentName is required" :: normalizerErrors) s t
           \/ (t = [] /\ s = Rejected URIError
               /\ exists name, agentName = Some name
                               /\ Utf16.isWellFormed name = false)
           \/ fromWire s t)
    /\ (forall T s t, getAgents c T = Some (s, t) -> fromWire s t)
    /\ (forall T s t, getHealth c T = Some (s, t) -> fromWire s t).
Proof.
  intro c. split; [|split; [|split]].
  - intros T input s t. unfold call.
    destruct (prepareCallRequest input) as [pl|th] eqn:Hp.
    + intro H. right. exact (send_fromWire _ _ _ _ _ _ H).
    + intro H; inversion H; subst. left.
      destruct (prepare_Throw _ _ Hp) as (msg & -> & Hin).
      split; [reflexivity|]. eauto.
  - intros T agentName input s t. unfold Utf16.callAgent.
    destruct (negb (truthy agentName)) eqn:Hname.
    { intro H; inversion H; subst. left. split; [reflexivity|].
      eexists. split; [left; reflexivity|reflexivity]. }
    destruct (prepareCallRequest input) as [pl|th] eqn:Hp.
    + destruct agentName as [name|]; [|discriminate].
      cbn [Utf16.toString].
      destruct (Utf16.isWellFormed name) eqn:Hw.
      * destruct (encode_returns name Hw) as [segment ->].
        intro H. right; right. exact (send_fromWire _ _ _ _ _ _ H).
      * rewrite (encode_throws name Hw).
        intro H; inversion H; subst. right; left. eauto.
    + intro H; inversion H; subst. left.
      destruct (prepare_Throw _ _ Hp) as (msg & -> & Hin).
      split; [reflexivity|]. exists msg. split; [right; exact Hin|reflexivity].
  - intros T s t H. exact (send_fromWire _ _ _ _ _ _ H).
  - intros T s t H. exact (send_fromWire _ _ _ _ _ _ H).
Qed.

Lemma how_methods_end_witness :
  (ownError normalizerErrors
            (Rejected (Error "Message must have a type property") : Settled string) []
   \/ fromWire (Rejected (Error "Message must have a type property") : Settled string) [])
  /\ (ownError ("agentName is required" :: normalizerErrors)
               (Rejected URIError : Settled string) []
      \/ ([] = @nil Event /\ Rejected URIError = (Rejected URIError : Settled string)
          /\ exists name, Some Scenes.loneSurrogate = Some name
                          /\ Utf16.isWellFormed name = false)
      \/ fromWire (Rejected URIError : Settled string) [])
  /\ fromWire (Rejected (TransportError Scenes.networkError) : Settled HealthStatus)
              [Attempt (merged (httpClient Fixtures.retryClient) GET "/health" None)].
Proof.
  destruct (how_methods_end Fixtures.retryClient) as (Hcall & Hagent & _ & Hhealth).
  split; [|split].
  - apply (Hcall Fixtures.steady (One Fixtures.noType)). reflexivity.
  - apply (Hagent Fixtures.steady (Some Scenes.loneSurrogate) (One Fixtures.hello)).
    reflexivity.
  - apply (Hhealth (Scenes.stub Scenes.networkError)). reflexivity.
Defined.

(* ================================================================== *)
(** ** The client built by the constructor                             *)
(* ================================================================== *)

Lemma client_profile (c : CubicClient) :
  everyAttempt c (fun a => baseURL a = defaults_baseURL (httpClient c)
                           /\ cfg_timeout a = defaults_timeout (httpClient c)
                           /\ headers a = defaults_headers (httpClient c)
                           /\ (forall k, __retryCount a = Some k -> 0 < k)).
Proof.
  apply (everyRun_intro c (fun t => Forall _ (attempts t))); [constructor|].
  intros D T m u d s t Hs.
  unfold send in Hs.
  assert (Hgen : forall fuel n cfg s t,
             request T (retryInterceptor (httpClient c)) fuel n cfg = Some (s, t) ->
             (forall k, __retryCount cfg = Some k -> 0 < k) ->
             Forall (fun a => wire a = wire cfg
                              /\ (forall k, __retryCount a = Some k -> 0 < k))
                    (attempts t)).
  { clear. induction fuel as [|fuel IH]; intros n cfg s t; cbn [request]; [discriminate|].
    destruct (T n cfg) as [r|e].
    - intros H Hk; inversion H; subst. cbn. auto.
    - destruct (retryInterceptor (httpClient c)) as [maxRetries|].
      + destruct (onRejected_cases maxRetries e cfg) as [(Ho & _)|[Ho _]].
        * rewrite Ho.
          destruct (request T (Some maxRetries) fuel (S n)
                            (set_retryCount cfg (count0 cfg + 1)))
            as [[s' t']|] eqn:Hr; [|discriminate].
          intros H Hk; inversion H; subst. cbn. constructor; [auto|].
          assert (Hpos : 0 <= count0 cfg).
          { unfold count0, or_else.
            destruct (__retryCount cfg) as [k|] eqn:Hc; [|cbn; lia].
            specialize (Hk k eq_refl). destruct (truthy k); lia. }
          eapply Forall_impl; [|apply (IH _ _ _ _ Hr)].
          -- intros a [Hw Ha]. split; [rewrite Hw; reflexivity|exact Ha].
          -- intros k Hk'. cbn in Hk'. inversion Hk'. lia.
        * destruct (onRejected maxRetries e cfg) as [cfg' dec]. cbn [snd] in Ho.
          subst dec. intros H Hk; inversion H; subst. cbn. auto.
      + intros H Hk; inversion H; subst. cbn. auto. }
  eapply Forall_impl; [|apply (Hgen _ _ _ _ _ Hs); intros k Hk; discriminate].
  intros a [Hw Ha]. unfold wire in Hw. cbn in Hw. inversion Hw. auto.
Qed.

(** X10. For a non-empty [baseUrl] the constructor returns a client, and
    every attempt of every method of that client carries the profile given:
    the base URL, the header [Content-Type: application/json], and the
    [timeout] option when it is truthy (90000 otherwise).  The interceptor is
    installed, with [maxRetries] = z, exactly when [retry] is a positive
    number z. *)
Theorem constructor_profile :
  forall (options : CubicClientOptions) (b : string),
    baseUrl options = Some b ->
    b <> EmptyString ->
    exists c : CubicClient,
      new_CubicClient options = Return c
      /\ everyAttempt c (fun a =>
                           baseURL a = Some b
                           /\ headers a = [("Content-Type", "application/json")]
                           /\ cfg_timeout a
                              = match timeout options with
                                | Some t => if truthy t then t else Num 90000
                                | None => Num 90000
                                end)
      /\ (forall z : Z,
             retryInterceptor (httpClient c) = Some z
             <-> retry options = Some (Num z) /\ 0 < z).
Proof.
  intros options b Hb Hne.
  assert (Hex : exists c, new_CubicClient options = Return c).
  { unfold new_CubicClient. rewrite Hb.
    apply truthy_string_nonempty in Hne.
    change (truthy (Some b)) with (truthy b). rewrite Hne. cbn [negb].
    destruct (retry options) as [[z|]|]; [|eauto|eauto].
    destruct (truthy (Num z) && gtb (Num z) (Num 0)); eauto. }
  destruct Hex as [c Hnew]. exists c. split; [exact Hnew|].
  destruct (constructor_instance _ _ Hnew) as (Hbase & Hto & Hhd & Hi).
  split.
  - pose proof (client_profile c) as Hp.
    unfold everyAttempt in *.
    destruct Hp as (H1 & H2 & H3 & H4).
    assert (Himp : forall a,
               baseURL a = defaults_baseURL (httpClient c)
               /\ cfg_timeout a = defaults_timeout (httpClient c)
               /\ headers a = defaults_headers (httpClient c)
               /\ (forall k, __retryCount a = Some k -> 0 < k) ->
               baseURL a = Some b
               /\ headers a = [("Content-Type", "application/json")]
               /\ cfg_timeout a
                  = match timeout options with
                    | Some t => if truthy t then t else Num 90000
                    | None => Num 90000
                    end).
    { intros a (Ha & Hb' & Hc' & _).
      rewrite Ha, Hb', Hc', Hbase, Hto, Hhd, Hb. auto. }
    repeat split; intros; (eapply Forall_impl; [exact Himp|]); eauto.
  - intro z. rewrite Hi.
    destruct (retry options) as [[z'|]|].
    + destruct (Z.ltb_spec 0 z') as [Hlt|Hge]; split.
      * intro H; inversion H; subst. auto.
      * intros [H Hz]; inversion H; subst. reflexivity.
      * discriminate.
      * intros [H Hz]; inversion H; subst. lia.
    + split; [discriminate|]. intros [H _]; discriminate.
    + split; [discriminate|]. intros [H _]; discriminate.
Qed.

Lemma constructor_profile_witness :
  exists c : CubicClient,
    new_CubicClient (mkOptions Fixtures.localhost (Some (Num 5000)) (Some (Num 3)))
    = Return c
    /\ everyAttempt c (fun a => cfg_timeout a = Num 5000)
    /\ retryInterceptor (httpClient c) = Some 3.
Proof.
  destruct (constructor_profile
              (mkOptions Fixtures.localhost (Some (Num 5000)) (Some (Num 3)))
              "http://localhost:1503" eq_refl)
    as (c & Hnew & Hall & Hi); [discriminate|].
  exists c. split; [exact Hnew|]. split.
  - destruct Hall as (H1 & H2 & H3 & H4).
    repeat split; intros;
      (eapply Forall_impl; [|eauto]); cbn; intros a Ha; apply Ha.
  - apply Hi. split; [reflexivity|lia].
Defined.

(* ================================================================== *)
(** ** The path of [callAgent]                                         *)
(* ================================================================== *)

Lemma encode_cons (c : ascii) (r : string) :
  encodeURIComponent (String c r) = escapeChar c ++ encodeURIComponent r.
Proof. reflexivity. Qed.

Lemma chars_app (s1 s2 : string) :
  list_ascii_of_string (s1 ++ s2)
  = (list_ascii_of_string s1 ++ list_ascii_of_string s2)%list.
Proof.
  induction s1 as [|c s1 IH]; cbn; [reflexivity|]. rewrite IH. reflexivity.
Qed.

Ltac each_ascii c :=
  destruct c as [[] [] [] [] [] [] [] []].

(** One step of the encoding is well escaped. *)
Lemma wellEscaped_escapeChar (c : ascii) (r : string) :
  wellEscaped (escapeChar c ++ r) = wellEscaped r.
Proof. each_ascii c; reflexivity. Qed.

Lemma escapeChar_alphabet (c : ascii) :
  forallb (fun ch => unreserved ch || Ascii.eqb ch "%")
          (list_ascii_of_string (escapeChar c)) = true.
Proof. each_ascii c; reflexivity. Qed.

(** One step of the encoding can be read back. *)
Lemma unescapeHead_escapeChar (c : ascii) (r : string) :
  unescapeHead (escapeChar c ++ r) = Some (c, r).
Proof. each_ascii c; reflexivity. Qed.

Lemma encode_unreserved (s : string) :
  forallb unreserved (list_ascii_of_string s) = true ->
  encodeURIComponent s = s.
Proof.
  induction s as [|c s IH]; [reflexivity|].
  cbn [list_ascii_of_string forallb]. rewrite andb_true_iff. intros [Hc Hs].
  rewrite encode_cons. unfold escapeChar. rewrite Hc, (IH Hs). reflexivity.
Qed.

Lemma encode_injective (a : string) :
  forall b, encodeURIComponent a = encodeURIComponent b -> a = b.
Proof.
  induction a as [|c a IH]; intros [|d b] H.
  - reflexivity.
  - apply (f_equal unescapeHead) in H.
    rewrite encode_cons, unescapeHead_escapeChar in H. discriminate.
  - apply (f_equal unescapeHead) in H.
    rewrite encode_cons, unescapeHead_escapeChar in H. discriminate.
  - apply (f_equal unescapeHead) in H.
    rewrite !encode_cons, !unescapeHead_escapeChar in H.
    inversion H; subst. f_equal. apply IH. assumption.
Qed.

(** X11. An agent name made of unreserved characters only (letters, digits
    and [-_.!~*'()]) goes into the path as it is: [callAgent] posts to
    [/dispatch/] followed by the name. *)
Theorem plain_agent_name :
  forall name : string,
    forallb unreserved (list_ascii_of_string name) = true ->
    encodeURIComponent name = name
    /\ forall (c : CubicClient) (T : Transport CallResponse)
              (input : MessagesInput) (requestPayload : CallRequest),
        name <> EmptyString ->
        prepareCallRequest input = Return requestPayload ->
        exists s t,
          callAgent c T (Some name) input
          = Some (s, Attempt (merged (httpClient c) POST ("/dispatch/" ++ name)
                                     (Some requestPayload)) :: t).
Proof.
  intros name Hname.
  pose proof (encode_unreserved name Hname) as He.
  split; [exact He|].
  intros c T input requestPayload Hn Hp.
  unfold callAgent. rewrite (truthy_agentName _ Hn), Hp. cbn [negb toString].
  rewrite He. unfold post.
  destruct (send_settles (httpClient c) T
              (merged (httpClient c) POST ("/dispatch/" ++ name) (Some requestPayload))
              eq_refl) as [[s t] Hs].
  destruct (send_wire _ _ _ _ _ Hs) as [[t' ->] _].
  rewrite Hs. destruct s as [r|e]; cbn [unwrap]; eauto.
Qed.

Lemma plain_agent_name_witness :
  encodeURIComponent "my-agent" = "my-agent"
  /\ exists s t,
      callAgent Fixtures.plainClient Fixtures.steady (Some "my-agent")
                (One Fixtures.hello)
      = Some (s, Attempt (merged (httpClient Fixtures.plainClient) POST
                                 "/dispatch/my-agent"
                                 (Some (mkCallRequest [Fixtures.hello]))) :: t).
Proof.
  destruct (plain_agent_name "my-agent" eq_refl) as [He Hpath].
  split; [exact He|].
  apply Hpath; [discriminate|reflexivity].
Defined.

(** X12. The encoded agent name is a well-formed escaped string: it holds
    unreserved characters and [%] followed by two upper-case hexadecimal
    digits, nothing else.  So none of [/ ? # & = + : @] and no space gets
    into the path of [callAgent] from the name, and the segment after
    [/dispatch/] is empty only for the empty name. *)
Theorem encoded_name_is_one_segment :
  forall name : string,
    wellEscaped (encodeURIComponent name) = true
    /\ Forall (fun ch => unreserved ch = true \/ ch = "%"%char)
              (list_ascii_of_string (encodeURIComponent name))
    /\ Forall (fun ch => ~ In ch (list_ascii_of_string (encodeURIComponent name)))
              (list_ascii_of_string "/?#&=+:@ ")
    /\ (encodeURIComponent name = EmptyString <-> name = EmptyString).
Proof.
  intro name.
  assert (Hw : wellEscaped (encodeURIComponent name) = true).
  { induction name as [|c r IH]; [reflexivity|].
    rewrite encode_cons, wellEscaped_escapeChar. exact IH. }
  assert (Ha : forallb (fun ch => unreserved ch || Ascii.eqb ch "%")
                       (list_ascii_of_string (encodeURIComponent name)) = true).
  { clear Hw. induction name as [|c r IH]; [reflexivity|].
    rewrite encode_cons, chars_app, forallb_app, escapeChar_alphabet. exact IH. }
  assert (Hall : Forall (fun ch => unreserved ch = true \/ ch = "%"%char)
                        (list_ascii_of_string (encodeURIComponent name))).
  { apply Forall_forall. intros ch Hin.
    rewrite forallb_forall in Ha. specialize (Ha ch Hin).
    apply orb_true_iff in Ha. destruct Ha as [Hu|Hp]; [left; exact Hu|].
    right. apply Ascii.eqb_eq. exact Hp. }
  split; [exact Hw|]. split; [exact Hall|]. split.
  - rewrite Forall_forall in Hall.
    repeat constructor; intro Hin; destruct (Hall _ Hin) as [Hu|Hp]; discriminate.
  - split; [|intros ->; reflexivity].
    intro He. apply encode_injective. rewrite He. reflexivity.
Qed.

(** X13. The encoding of the agent name loses nothing: two names with the
    same encoding are the same name, so [callAgent] sends different agent
    names to different paths, none of them the path [/dispatch] of
    [call]. *)
Theorem agent_paths_distinct :
  (forall a b : string,
      encodeURIComponent a = encodeURIComponent b -> a = b)
  /\ (forall a b : string,
         "/dispatch/" ++ encodeURIComponent a = "/dispatch/" ++ encodeURIComponent b ->
         a = b)
  /\ (forall a : string, "/dispatch/" ++ encodeURIComponent a <> "/dispatch").
Proof.
  split; [|split].
  - intros a b. apply encode_injective.
  - intros a b H. cbn in H. inversion H. apply encode_injective. assumption.
  - intros a H. cbn in H. inversion H.
Qed.

Lemma agent_paths_distinct_witness :
  "/dispatch/" ++ encodeURIComponent "a b" <> "/dispatch/" ++ encodeURIComponent "a%20b".
Proof.
  destruct agent_paths_distinct as (_ & Hpaths & _).
  intro H. apply Hpaths in H. discriminate.
Defined.

Lemma encoded_name_is_one_segment_witness :
  wellEscaped (encodeURIComponent "team/agent?x=1") = true
  /\ ~ In "/"%char (list_ascii_of_string (encodeURIComponent "team/agent?x=1")).
Proof.
  destruct (encoded_name_is_one_segment "team/agent?x=1") as (Hw & _ & Hnone & _).
  split; [exact Hw|].
  inversion Hnone as [|ch rest Hslash _]. exact Hslash.
Defined.

(** X14. The loop over an array fails fast: the error of an array is the
    error of its first ill-formed message, as if that message were the whole
    array; the messages after it are not looked at. *)
Theorem first_illFormed_decides :
  forall (pre : list Message) (m : Message) (post : list Message),
    forallb wellFormed pre = true ->
    wellFormed m = false ->
    prepareCallRequest (Many (pre ++ m :: post)) = prepareCallRequest (Many [m])
    /\ exists msg,
        prepareCallRequest (Many (pre ++ m :: post)) = Throw (Error msg)
        /\ In msg ["Each message must have both sender and content properties";
                   "Each message sender must have an id property";
                   "Each message must have a type property"].
Proof.
  intros pre m post Hpre Hm.
  destruct (illFormed_cases m Hm) as [H|[(Hs & Hc & Hi)|(Hs & Hc & Hi & Ht)]].
  - destruct (check_sender_content m H) as [_ Harr].
    rewrite (Harr pre post Hpre).
    split; [symmetry; exact (Harr [] [] eq_refl)|].
    eexists. split; [reflexivity|]. cbn. auto.
  - destruct (check_sender_id m Hs Hc Hi) as [_ Harr].
    rewrite (Harr pre post Hpre).
    split; [symmetry; exact (Harr [] [] eq_refl)|].
    eexists. split; [reflexivity|]. cbn. auto.
  - destruct (check_type m Hs Hc Hi Ht) as [_ Harr].
    rewrite (Harr pre post Hpre).
    split; [symmetry; exact (Harr [] [] eq_refl)|].
    eexists. split; [reflexivity|]. cbn. auto.
Qed.

Lemma first_illFormed_decides_witness :
  prepareCallRequest
    (Many [Fixtures.hello; Fixtures.hiThere; Fixtures.noType; Fixtures.noSender])
  = prepareCallRequest (Many [Fixtures.noType]).
Proof.
  destruct (first_illFormed_decides [Fixtures.hello; Fixtures.hiThere]
              Fixtures.noType [Fixtures.noSender] eq_refl eq_refl) as [H _].
  exact H.
Defined.
